(** * The xdebug extension of HHVM: profiler attachment and trace file names

    A shallow embedding of [hphp/runtime/ext/xdebug/ext_xdebug.cpp]: the
    filename templater ([replace_special_chars], [format_filename]), the
    attach/detach life cycle of the per-thread xdebug profiler, the explicit
    trace and code-coverage builtins and the automatic attach at request
    start, followed by the properties proved about them. *)

From Stdlib Require Import ZArith String Ascii DecimalString HexadecimalString.
From stdpp Require Import base option list gmap strings.

#[local] Set Warnings "-register-all".
#[local] Open Scope Z_scope.

(** ** Runtime values *)

(** The [Variant] of the runtime, as far as this file inspects one: it asks
    [isString], converts with [toString] and [toArray], and looks keys up.
    An array is a finite map; an integer key is kept under its decimal
    spelling, which is how [Array::exists (const String&)] and the array
    itself normalise keys.  Doubles and resources are only ever converted
    here and are carried by their string conversion. *)
Inductive variant : Type :=
  | VNull
  | VBool (b : bool)
  | VInt (n : Z)
  | VStr (s : string)
  | VArr (a : gmap string variant)
  | VOther (as_string : string).

Abbreviation Array := (gmap string variant).

Definition dec (n : Z) : string :=
  DecimalString.NilZero.string_of_int (Z.to_int n).

(** [printf ("%lx", (uint64_t) n)] *)
Definition hex_u64 (n : Z) : string :=
  HexadecimalString.NilZero.string_of_uint (N.to_hex_uint (Z.to_N (n mod 2 ^ 64))).

Definition isString (v : variant) : bool :=
  match v with VStr _ => true | _ => false end.

Definition toString (v : variant) : string :=
  match v with
  | VNull => ""
  | VBool true => "1"
  | VBool false => ""
  | VInt n => dec n
  | VStr s => s
  | VArr _ => "Array"
  | VOther s => s
  end.

(** [toArray] of an object would list its properties; objects are left out
    of [variant]. *)
Definition toArray (v : variant) : Array :=
  match v with
  | VNull => ∅
  | VArr a => a
  | _ => {[ "0" := v ]}
  end.

(** [a.exists(key)] *)
Definition exists_ (a : Array) (key : string) : bool :=
  bool_decide (is_Some (a !! key)).

(** [a[key]] on a const array: the null variant when the key is missing. *)
Definition rvalAt (a : Array) (key : string) : variant :=
  default VNull (a !! key).

(** ** Globals *)

Definition s_SERVER : string := "_SERVER".
Definition s_COOKIE : string := "_COOOKIE".
Definition s_GET : string := "_GET".
Definition s_POST : string := "_POST".

Definition s_HTTP_HOST : string := "HTTP_HOST".
Definition s_REQUEST_URI : string := "REQUEST_URI".
Definition s_SCRIPT_NAME : string := "SCRIPT_NAME".
Definition s_UNIQUE_ID : string := "UNIQUE_ID".
Definition s_SESSION_NAME : string := "session.name".

(** What the templater and the trigger test read from outside the
    extension.  [f_crc32] (ext_string), [f_rand] (ext_math), [time] and
    [gettimeofday] are not part of this file and are taken as given; the
    n-th call of any of the last three is answered from the n-th entry, so
    that two directives of one template may see different values. *)
Record Ambient : Type := {
  globals : Array;                      (* get_global_variables() *)
  ini_settings : gmap string string;    (* IniSetting::Get *)
  getCwd : string;                      (* g_context->getCwd() *)
  f_crc32 : string → Z;
  getpid : Z;
  f_rand : nat → Z;
  time : nat → Z;                       (* -1 on failure *)
  gettimeofday : nat → option (Z * Z);  (* None for -1, else (tv_sec, tv_usec) *)
  isNested : bool                       (* g_context->isNested() *)
}.

Definition set_globals (vars : Array) (env : Ambient) : Ambient :=
  {| globals := vars; ini_settings := ini_settings env;
     getCwd := getCwd env; f_crc32 := f_crc32 env; getpid := getpid env;
     f_rand := f_rand env; time := time env; gettimeofday := gettimeofday env;
     isNested := isNested env |}.

(** [globals->get(name)]: the null variant for an unset global. *)
Definition globals_get (env : Ambient) (name : string) : variant :=
  rvalAt (globals env) name.

(** [IniSetting::Get(name, value)] *)
Definition IniSetting_Get (env : Ambient) (name : string) : option string :=
  ini_settings env !! name.

(** ** The filename templater *)

Definition special_char (c : ascii) : bool :=
  match c with
  | "/" | "\" | "." | "?" | "&" | "+" | " " => true
  | _ => false
  end%char.

Fixpoint replace_special_chars (str : string) : string :=
  match str with
  | EmptyString => EmptyString
  | String c rest =>
      String (if special_char c then "_"%char else c) (replace_special_chars rest)
  end.

(** A [StringBuffer] together with the number of clock and random calls
    made so far. *)
Definition Buf : Type := (string * nat)%type.

Definition buf_append (b : Buf) (s : string) : Buf := (b.1 +:+ s, b.2).
Definition buf_char (b : Buf) (c : ascii) : Buf := (b.1 +:+ String c "", b.2).
Definition buf_tick (b : Buf) : Buf := (b.1, S b.2).

(** The body shared by [%s], [%H] and [%U]. *)
Definition append_server_string (env : Ambient) (key : string) (b : Buf) : Buf :=
  let server := toArray (globals_get env s_SERVER) in
  if exists_ server key && isString (rvalAt server key)
  then buf_append b (replace_special_chars (toString (rvalAt server key)))
  else b.

(** The [switch] on the character after a [%]. *)
Definition format_directive (env : Ambient) (c : ascii) (b : Buf) : Buf :=
  match c with
  | "c" => buf_append b (dec (f_crc32 env (getCwd env)))
  | "p" => buf_append b (dec (getpid env))
  | "r" => buf_tick (buf_append b (hex_u64 (f_rand env b.2)))
  | "s" => append_server_string env s_SCRIPT_NAME b
  | "t" =>
      let sec := time env b.2 in
      buf_tick (if decide (sec ≠ -1) then buf_append b (dec sec) else b)
  | "u" =>
      buf_tick (match gettimeofday env b.2 with
                | Some (sec, usec) => buf_append b (dec sec +:+ "_" +:+ dec usec)
                | None => b
                end)
  | "H" => append_server_string env s_HTTP_HOST b
  | "R" =>
      let server := toArray (globals_get env s_SERVER) in
      if exists_ (globals env) s_REQUEST_URI
      then buf_append b (replace_special_chars (toString (rvalAt server s_REQUEST_URI)))
      else b
  | "U" => append_server_string env s_UNIQUE_ID b
  | "S" =>
      match IniSetting_Get env s_SESSION_NAME with
      | Some session_name =>
          let cookies := toArray (globals_get env s_COOKIE) in
          if exists_ cookies session_name && isString (rvalAt cookies session_name)
          then buf_append b (replace_special_chars (toString (rvalAt cookies session_name)))
          else b
      | None =>
          (* no [break] on this path: control runs into [case '%'] *)
          buf_char b "%"
      end
  | "%" => buf_char b "%"
  | _ => buf_char (buf_char b "%") c
  end%char.

(** The characters that select a [case] of their own in that [switch]. *)
Definition is_directive (c : ascii) : bool :=
  match c with
  | "c" | "p" | "r" | "s" | "t" | "u" | "H" | "R" | "U" | "S" | "%" => true
  | _ => false
  end%char.

(** The [for] loop over the template, from the position where [fmt] is what
    remains of it. *)
Fixpoint format_loop (env : Ambient) (fmt : string) (b : Buf) : Buf :=
  match fmt with
  | EmptyString => b
  | String c rest =>
      match rest with
      | EmptyString => buf_char b c            (* pos + 1 == formatlen *)
      | String c' rest' =>
          if decide (c ≠ "%"%char)
          then format_loop env rest (buf_char b c)
          else format_loop env rest' (format_directive env c' b)
      end
  end.

Definition format_filename (env : Ambient) (calls : nat)
    (dir : option string) (formatFile : string) (addSuffix : bool) : Buf :=
  let buf : Buf :=
    match dir with
    | Some d => buf_char (buf_append ("", calls) d) "/"
    | None => ("", calls)
    end in
  let buf := format_loop env formatFile buf in
  if addSuffix then buf_append buf ".xt" else buf.

(** ** Configuration *)

(** The bit flags of the trace and profile options.  They are declared in
    [ext_xdebug.h]; nothing below depends on their values. *)
Class XDebugConstants : Type := {
  k_XDEBUG_TRACE_APPEND : Z;
  k_XDEBUG_TRACE_COMPUTERIZED : Z;
  k_XDEBUG_TRACE_HTML : Z;
  k_XDEBUG_TRACE_NAKED_FILENAME : Z;
  k_XDEBUG_PROFILE_APPEND : Z
}.

(** The static configuration members of [XDebugExtension] that this file
    reads.  The last six fields feed the three policy predicates below. *)
Record XDebugExtension : Type := {
  Enable : bool;
  TraceOptions : Z;
  TraceFormat : Z;
  TraceOutputDir : string;
  TraceOutputName : string;
  ProfilerAppend : bool;
  ProfilerOutputDir : string;
  ProfilerOutputName : string;
  CollectMemory : bool;
  CollectTime : bool;
  ProfilerEnable : bool;
  ProfilerEnableTrigger : bool;
  ProfilerTrigger : string;
  AutoTrace : bool;
  TraceEnableTrigger : bool;
  TraceTrigger : string
}.

Definition isTriggerSet (env : Ambient) (trigger : string) : bool :=
  let get := toArray (globals_get env s_GET) in
  let post := toArray (globals_get env s_POST) in
  let cookies := toArray (globals_get env s_COOKIE) in
  exists_ cookies trigger || exists_ get trigger || exists_ post trigger.

(** Modelled from the spec: [XDebugExtension::isProfilingNeeded],
    [isTracingNeeded] and [isProfilerNeeded] are defined in the absent
    [ext_xdebug.h].  Profiling, respectively tracing, is needed when its
    explicit enable flag is set or when its trigger is enabled and the
    configured trigger key is found by [isTriggerSet]; the profiler is
    needed when either is. *)
Definition isProfilingNeeded (cfg : XDebugExtension) (env : Ambient) : bool :=
  ProfilerEnable cfg || (ProfilerEnableTrigger cfg && isTriggerSet env (ProfilerTrigger cfg)).

Definition isTracingNeeded (cfg : XDebugExtension) (env : Ambient) : bool :=
  AutoTrace cfg || (TraceEnableTrigger cfg && isTriggerSet env (TraceTrigger cfg)).

Definition isProfilerNeeded (cfg : XDebugExtension) (env : Ambient) : bool :=
  isProfilingNeeded cfg env || isTracingNeeded cfg env.

(** ** The profiler and its factory *)

(** Modelled from the spec: [XDebugProfiler] lives in the absent
    [xdebug_profiler.h].  At most one trace and one profile are active;
    enabling one that is already active does nothing; disabling a trace
    that is not active does nothing; a filename getter returns the path of
    the last effective enable call; [isCollecting] holds when tracing or
    profiling is active. *)
Record XDebugProfiler : Type := {
  m_tracingEnabled : bool;
  m_tracingFilename : string;
  m_tracingOpts : Z;
  m_profilingEnabled : bool;
  m_profilingFilename : string;
  m_profilingOpts : Z;
  m_collectMemory : bool;
  m_collectTime : bool;
  m_frames : nat                        (* beginFrame calls *)
}.

Definition new_XDebugProfiler : XDebugProfiler :=
  {| m_tracingEnabled := false; m_tracingFilename := ""; m_tracingOpts := 0;
     m_profilingEnabled := false; m_profilingFilename := ""; m_profilingOpts := 0;
     m_collectMemory := false; m_collectTime := false; m_frames := 0 |}.

Definition enableTracing (filename : string) (opts : Z) (p : XDebugProfiler)
    : XDebugProfiler :=
  if m_tracingEnabled p then p
  else {| m_tracingEnabled := true; m_tracingFilename := filename; m_tracingOpts := opts;
          m_profilingEnabled := m_profilingEnabled p;
          m_profilingFilename := m_profilingFilename p;
          m_profilingOpts := m_profilingOpts p;
          m_collectMemory := m_collectMemory p; m_collectTime := m_collectTime p;
          m_frames := m_frames p |}.

Definition disableTracing (p : XDebugProfiler) : XDebugProfiler :=
  if m_tracingEnabled p
  then {| m_tracingEnabled := false; m_tracingFilename := m_tracingFilename p;
          m_tracingOpts := m_tracingOpts p;
          m_profilingEnabled := m_profilingEnabled p;
          m_profilingFilename := m_profilingFilename p;
          m_profilingOpts := m_profilingOpts p;
          m_collectMemory := m_collectMemory p; m_collectTime := m_collectTime p;
          m_frames := m_frames p |}
  else p.

Definition enableProfiling (filename : string) (opts : Z) (p : XDebugProfiler)
    : XDebugProfiler :=
  if m_profilingEnabled p then p
  else {| m_tracingEnabled := m_tracingEnabled p;
          m_tracingFilename := m_tracingFilename p; m_tracingOpts := m_tracingOpts p;
          m_profilingEnabled := true; m_profilingFilename := filename;
          m_profilingOpts := opts;
          m_collectMemory := m_collectMemory p; m_collectTime := m_collectTime p;
          m_frames := m_frames p |}.

Definition setCollectMemory (v : bool) (p : XDebugProfiler) : XDebugProfiler :=
  {| m_tracingEnabled := m_tracingEnabled p;
     m_tracingFilename := m_tracingFilename p; m_tracingOpts := m_tracingOpts p;
     m_profilingEnabled := m_profilingEnabled p;
     m_profilingFilename := m_profilingFilename p; m_profilingOpts := m_profilingOpts p;
     m_collectMemory := v; m_collectTime := m_collectTime p; m_frames := m_frames p |}.

Definition setCollectTime (v : bool) (p : XDebugProfiler) : XDebugProfiler :=
  {| m_tracingEnabled := m_tracingEnabled p;
     m_tracingFilename := m_tracingFilename p; m_tracingOpts := m_tracingOpts p;
     m_profilingEnabled := m_profilingEnabled p;
     m_profilingFilename := m_profilingFilename p; m_profilingOpts := m_profilingOpts p;
     m_collectMemory := m_collectMemory p; m_collectTime := v; m_frames := m_frames p |}.

Definition beginFrame (p : XDebugProfiler) : XDebugProfiler :=
  {| m_tracingEnabled := m_tracingEnabled p;
     m_tracingFilename := m_tracingFilename p; m_tracingOpts := m_tracingOpts p;
     m_profilingEnabled := m_profilingEnabled p;
     m_profilingFilename := m_profilingFilename p; m_profilingOpts := m_profilingOpts p;
     m_collectMemory := m_collectMemory p; m_collectTime := m_collectTime p;
     m_frames := S (m_frames p) |}.

Definition isTracing (p : XDebugProfiler) : bool := m_tracingEnabled p.
Definition isProfiling (p : XDebugProfiler) : bool := m_profilingEnabled p.
Definition getTracingFilename (p : XDebugProfiler) : string := m_tracingFilename p.
Definition getProfilingFilename (p : XDebugProfiler) : string := m_profilingFilename p.
Definition isCollecting (p : XDebugProfiler) : bool :=
  m_tracingEnabled p || m_profilingEnabled p.

(** What the per-thread factory slot can hold: the xdebug profiler, or a
    profiler of another kind that some other extension started. *)
Inductive Profiler : Type :=
  | XDebug (p : XDebugProfiler)
  | OtherProfiler.

(** ** Request state *)

Record XDebugRequestData : Type := {
  m_profiler_attached : bool;
  m_init_time : Z
}.

(** One event per completed attach and per detach, newest first. *)
Inductive LifecycleEvent : Type := Attached | Detached.

(** Line numbers hit per file, as [CodeCoverage] accumulates them. *)
Abbreviation CodeCoverage := (gmap string (list Z)).

Record Thread : Type := {
  s_request : XDebugRequestData;
  s_profiler_factory : option Profiler;   (* ProfilerFactory::m_profiler *)
  m_coverage_flag : bool;                 (* m_reqInjectionData.getCoverage() *)
  m_coverage : CodeCoverage;
  calls : nat;                            (* clock and random calls so far *)
  notices : list string;                  (* raise_notice *)
  lifecycle : list LifecycleEvent
}.

Definition attached (t : Thread) : bool := m_profiler_attached (s_request t).

Definition set_request (r : XDebugRequestData) (t : Thread) : Thread :=
  {| s_request := r; s_profiler_factory := s_profiler_factory t;
     m_coverage_flag := m_coverage_flag t; m_coverage := m_coverage t;
     calls := calls t; notices := notices t; lifecycle := lifecycle t |}.

Definition set_attached (v : bool) (t : Thread) : Thread :=
  set_request {| m_profiler_attached := v; m_init_time := m_init_time (s_request t) |} t.

Definition set_factory (f : option Profiler) (t : Thread) : Thread :=
  {| s_request := s_request t; s_profiler_factory := f;
     m_coverage_flag := m_coverage_flag t; m_coverage := m_coverage t;
     calls := calls t; notices := notices t; lifecycle := lifecycle t |}.

Definition set_coverage_flag (v : bool) (t : Thread) : Thread :=
  {| s_request := s_request t; s_profiler_factory := s_profiler_factory t;
     m_coverage_flag := v; m_coverage := m_coverage t;
     calls := calls t; notices := notices t; lifecycle := lifecycle t |}.

Definition set_coverage (c : CodeCoverage) (t : Thread) : Thread :=
  {| s_request := s_request t; s_profiler_factory := s_profiler_factory t;
     m_coverage_flag := m_coverage_flag t; m_coverage := c;
     calls := calls t; notices := notices t; lifecycle := lifecycle t |}.

Definition set_calls (n : nat) (t : Thread) : Thread :=
  {| s_request := s_request t; s_profiler_factory := s_profiler_factory t;
     m_coverage_flag := m_coverage_flag t; m_coverage := m_coverage t;
     calls := n; notices := notices t; lifecycle := lifecycle t |}.

Definition add_notice (msg : string) (t : Thread) : Thread :=
  {| s_request := s_request t; s_profiler_factory := s_profiler_factory t;
     m_coverage_flag := m_coverage_flag t; m_coverage := m_coverage t;
     calls := calls t; notices := msg :: notices t; lifecycle := lifecycle t |}.

Definition add_event (e : LifecycleEvent) (t : Thread) : Thread :=
  {| s_request := s_request t; s_profiler_factory := s_profiler_factory t;
     m_coverage_flag := m_coverage_flag t; m_coverage := m_coverage t;
     calls := calls t; notices := notices t; lifecycle := e :: lifecycle t |}.

(** ** Computations on the thread state *)

Inductive Exception : Type :=
  | FatalError (msg : string)           (* raise_error *)
  | VMSwitchModeBuiltin.

(** A builtin returns, throws, or stops the process: on a violated
    [assert], or when the factory's profiler is used as an
    [XDebugProfiler] without being one. *)
Inductive Result (A : Type) : Type :=
  | Ok (a : A) (t : Thread)
  | Throw (e : Exception) (t : Thread)
  | Abort.

Arguments Ok {A} a t.
Arguments Throw {A} e t.
Arguments Abort {A}.

Definition M (A : Type) : Type := Thread → Result A.

Definition ret {A} (a : A) : M A := fun t => Ok a t.

Definition bind {A B} (m : M A) (k : A → M B) : M B :=
  fun t =>
    match m t with
    | Ok a t' => k a t'
    | Throw e t' => Throw e t'
    | Abort => Abort
    end.

Notation "'do' x <- m ; k" := (bind m (fun x => k))
  (at level 10, x name, m at level 100, k at level 200).

Definition get : M Thread := fun t => Ok t t.
Definition modify (f : Thread → Thread) : M unit := fun t => Ok tt (f t).
Definition throw {A} (e : Exception) : M A := fun t => Throw e t.
Definition assert (b : bool) : M unit := fun t => if b then Ok tt t else Abort.
Definition when (b : bool) (m : M unit) : M unit := if b then m else ret tt.

Definition raise_error {A} (msg : string) : M A := throw (FatalError msg).
Definition raise_notice (msg : string) : M unit := modify (add_notice msg).

(** ** The profiler life cycle and the builtins *)

Section Extension.

Context {K : XDebugConstants}.
Variable cfg : XDebugExtension.
Variable env : Ambient.

(** Modelled from the spec: [ProfilerFactory] is declared outside this
    file.  [start] binds a new profiler to the thread and succeeds unless
    one is bound already; [stop] releases whatever is bound. *)
Definition ProfilerFactory_start : M bool :=
  do t <- get;
  match s_profiler_factory t with
  | Some _ => ret false
  | None => do _ <- modify (set_factory (Some (XDebug new_XDebugProfiler))); ret true
  end.

Definition ProfilerFactory_stop : M unit := modify (set_factory None).

(** Returns the attached xdebug profiler.  Requires one is attached. *)
Definition xdebug_profiler : M XDebugProfiler :=
  do t <- get;
  do _ <- assert (attached t);
  match s_profiler_factory t with
  | Some (XDebug p) => ret p
  | _ => λ _, Abort
  end.

(** A method call [profiler->f (...)] through the pointer obtained from
    [xdebug_profiler]: it updates the one object the factory holds. *)
Definition profiler_call (f : XDebugProfiler → XDebugProfiler) : M unit :=
  do t <- get;
  match s_profiler_factory t with
  | Some (XDebug p) => modify (set_factory (Some (XDebug (f p))))
  | _ => λ _, Abort
  end.

(** The options [start_tracing] ends up with: the caller's, with the ini
    settings added. *)
Definition trace_options (options : Z) : Z :=
  let options :=
    if decide (TraceOptions cfg ≠ 0) then Z.lor options k_XDEBUG_TRACE_APPEND
    else options in
  let options :=
    if decide (TraceFormat cfg = 1) then Z.lor options k_XDEBUG_TRACE_COMPUTERIZED
    else options in
  if decide (TraceFormat cfg = 2) then Z.lor options k_XDEBUG_TRACE_HTML
  else options.

Definition start_tracing (filename : option string) (options : Z) : M unit :=
  let options := trace_options options in
  let dirname_filename :=
    match filename with
    | None => (Some (TraceOutputDir cfg), TraceOutputName cfg)
    | Some f => (None, f)
    end in
  let suffix := bool_decide (Z.land options k_XDEBUG_TRACE_NAKED_FILENAME = 0) in
  do t <- get;
  let abs_filename :=
    format_filename env (calls t) dirname_filename.1 dirname_filename.2 suffix in
  do _ <- modify (set_calls abs_filename.2);
  profiler_call (enableTracing abs_filename.1 options).

Definition start_profiling : M unit :=
  let opts := if ProfilerAppend cfg then Z.lor 0 k_XDEBUG_PROFILE_APPEND else 0 in
  do t <- get;
  let abs_filename :=
    format_filename env (calls t) (Some (ProfilerOutputDir cfg))
      (ProfilerOutputName cfg) false in
  do _ <- modify (set_calls abs_filename.2);
  profiler_call (enableProfiling abs_filename.1 opts).

Definition attach_failed : string :=
  "Could not start xdebug profiler. Another profiler is likely already attached to this thread.".

(** Attempts to attach the xdebug profiler to the current thread.  Assumes
    it is not already attached.  Raises an error on failure. *)
Definition attach_xdebug_profiler : M unit :=
  do t <- get;
  do _ <- assert (negb (attached t));
  do started <- ProfilerFactory_start;
  if started : bool then
    do _ <- modify (set_attached true);
    do _ <- modify (add_event Attached);
    do _ <- xdebug_profiler;
    do _ <- when (isProfilingNeeded cfg env) start_profiling;
    do _ <- when (isTracingNeeded cfg env) (start_tracing None 0);
    do _ <- profiler_call (setCollectMemory (CollectMemory cfg));
    profiler_call (setCollectTime (CollectTime cfg))
  else raise_error attach_failed.

(** Detaches the xdebug profiler from the current thread. *)
Definition detach_xdebug_profiler : M unit :=
  do t <- get;
  do _ <- assert (attached t);
  do _ <- ProfilerFactory_stop;
  do _ <- modify (set_attached false);
  modify (add_event Detached).

(** Detaches the xdebug profiler if it is no longer needed. *)
Definition detach_xdebug_profiler_if_needed : M unit :=
  do t <- get;
  do _ <- assert (attached t);
  do profiler <- xdebug_profiler;
  when (negb (isCollecting profiler)) detach_xdebug_profiler.

Definition xdebug_get_profiler_filename : M variant :=
  do t <- get;
  if negb (attached t) then ret (VBool false)
  else
    do profiler <- xdebug_profiler;
    if isProfiling profiler then ret (VStr (getProfilingFilename profiler))
    else ret (VBool false).

Definition xdebug_get_tracefile_name : M variant :=
  do t <- get;
  if attached t then
    do profiler <- xdebug_profiler;
    if isTracing profiler then ret (VStr (getTracingFilename profiler))
    else ret (VBool false)
  else ret (VBool false).

Definition xdebug_start_trace (traceFileVar : variant) (options : Z) : M variant :=
  let traceFile :=
    if isString traceFileVar then Some (toString traceFileVar) else None in
  do t <- get;
  do _ <- when (negb (attached t)) attach_xdebug_profiler;
  do profiler <- xdebug_profiler;
  if isTracing profiler then ret (VBool false)
  else
    do _ <- start_tracing traceFile options;
    do _ <- profiler_call beginFrame;
    xdebug_get_tracefile_name.

Definition xdebug_stop_trace : M variant :=
  do t <- get;
  if attached t then
    do profiler <- xdebug_profiler;
    if isTracing profiler then
      let filename := getTracingFilename profiler in
      do _ <- profiler_call disableTracing;
      do _ <- detach_xdebug_profiler_if_needed;
      ret (VStr filename)
    else ret (VBool false)
  else ret (VBool false).

Definition coverage_unsupported : string :=
  "XDEBUG_CC_UNUSED and XDEBUG_CC_DEAD_CODE constants are not currently supported.".

Definition coverage_nested : string :=
  "Calling xdebug_start_code_coverage from a nested VM instance may cause unpredicable results".

Definition xdebug_code_coverage_started : M bool :=
  do t <- get; ret (m_coverage_flag t).

Definition xdebug_start_code_coverage (options : Z) : M unit :=
  if decide (options ≠ 0) then raise_error coverage_unsupported
  else
    do _ <- modify (set_coverage_flag true);
    do _ <- when (isNested env) (raise_notice coverage_nested);
    throw VMSwitchModeBuiltin.

Definition xdebug_stop_code_coverage (cleanup : bool) : M unit :=
  do _ <- modify (set_coverage_flag false);
  when cleanup (modify (set_coverage ∅)).

(** [usage] is the reading [MM().getStats().usage]. *)
Definition xdebug_memory_usage (use_jemalloc : bool) (usage : Z) : M Z :=
  do _ <- assert (use_jemalloc || bool_decide (0 ≤ usage));
  ret (Z.max usage 0).

Definition _xdebug_check_trigger_vars : M unit :=
  when (Enable cfg && isProfilerNeeded cfg env) attach_xdebug_profiler.

Definition XDebugExtension_requestInit : M unit :=
  when (Enable cfg && isProfilerNeeded cfg env) attach_xdebug_profiler.

Definition XDebugExtension_requestShutdown : M unit :=
  do t <- get;
  when (Enable cfg && attached t) detach_xdebug_profiler.

(** [now] is the reading [Timer::GetCurrentTimeMicros()]. *)
Definition XDebugRequestData_requestInit (now : Z) : M unit :=
  modify (set_request {| m_profiler_attached := false; m_init_time := now |}).

Definition XDebugRequestData_requestShutdown : M unit :=
  modify (set_request {| m_profiler_attached := false; m_init_time := 0 |}).

(** ** Sequences of life-cycle operations *)

Inductive Op : Type :=
  | OpAttach
  | OpDetach
  | OpDetachIfIdle
  | OpStartTrace (traceFileVar : variant) (options : Z)
  | OpStopTrace
  | OpRequestShutdown.

Definition exec (o : Op) : M unit :=
  match o with
  | OpAttach => attach_xdebug_profiler
  | OpDetach => detach_xdebug_profiler
  | OpDetachIfIdle => detach_xdebug_profiler_if_needed
  | OpStartTrace f options => do _ <- xdebug_start_trace f options; ret tt
  | OpStopTrace => do _ <- xdebug_stop_trace; ret tt
  | OpRequestShutdown => XDebugExtension_requestShutdown
  end.

(** The thread after the operations, run in order; an operation that raises
    an error leaves the thread as it was when the error was raised.  [None]
    when the process was stopped on the way. *)
Fixpoint run (ops : list Op) (t : Thread) : option Thread :=
  match ops with
  | [] => Some t
  | o :: ops =>
      match exec o t with
      | Ok _ t' | Throw _ t' => run ops t'
      | Abort => None
      end
  end.

(** A thread at the start of a request: the request data was just
    initialised, no event has happened, and the factory holds no profiler
    or one of another extension. *)
Definition fresh (t : Thread) : Prop :=
  attached t = false ∧ lifecycle t = [] ∧
  (s_profiler_factory t = None ∨ s_profiler_factory t = Some OtherProfiler).

(** No two neighbouring events are equal. *)
Fixpoint alternating (l : list LifecycleEvent) : Prop :=
  match l with
  | e1 :: ((e2 :: _) as l') => e1 ≠ e2 ∧ alternating l'
  | _ => True
  end.

(** ** Vocabulary of the statements *)

(** The xdebug profiler the factory holds, if it holds one. *)
Definition bound (t : Thread) : option XDebugProfiler :=
  match s_profiler_factory t with
  | Some (XDebug p) => Some p
  | _ => None
  end.

(** The [isTracing()] query; no profiler, no trace. *)
Definition tracing (t : Thread) : bool :=
  match bound t with
  | Some p => isTracing p
  | None => false
  end.

(** Attached, the xdebug profiler bound, no trace active. *)
Definition idle (t : Thread) : Prop :=
  attached t = true ∧ ∃ p, bound t = Some p ∧ isTracing p = false.

(** Detached, the factory slot free, and no trace that the attach would
    start by itself. *)
Definition attachable (t : Thread) : Prop :=
  attached t = false ∧ s_profiler_factory t = None ∧ isTracingNeeded cfg env = false.

(** Whether [start_tracing] appends [.xt]. *)
Definition trace_suffix (options : Z) : bool :=
  bool_decide (Z.land (trace_options options) k_XDEBUG_TRACE_NAKED_FILENAME = 0).

(** The clock and random calls made by the time an explicit trace start
    resolves its path: an attach on the way may resolve the profile path
    first. *)
Definition calls_before_trace (t : Thread) : nat :=
  if attached t then calls t
  else if isProfilingNeeded cfg env
       then (format_filename env (calls t) (Some (ProfilerOutputDir cfg))
               (ProfilerOutputName cfg) false).2
       else calls t.

(** The flag agrees with the event log and with the factory, and the log
    alternates. *)
Definition accurate (t : Thread) : Prop :=
  (attached t = true ↔ head (lifecycle t) = Some Attached) ∧
  (attached t = true ↔ ∃ p, s_profiler_factory t = Some (XDebug p)) ∧
  alternating (lifecycle t).

(** [P] holds of the thread a computation leaves behind, whether it
    returned or threw. *)
Definition after {A} (r : Result A) (P : Thread → Prop) : Prop :=
  match r with
  | Ok _ t | Throw _ t => P t
  | Abort => True
  end.

Definition preserves {A} (m : M A) (P : Thread → Prop) : Prop :=
  ∀ t, P t → after (m t) P.

(** The operations a script can reach: the two builtins and the shutdown
    hook. *)
Definition is_builtin (o : Op) : bool :=
  match o with
  | OpStartTrace _ _ | OpStopTrace | OpRequestShutdown => true
  | _ => false
  end.

End Extension.

(** ** Sample requests *)

(** The flag values of php5 xdebug. *)
#[global] Instance php5_constants : XDebugConstants :=
  {| k_XDEBUG_TRACE_APPEND := 1;
     k_XDEBUG_TRACE_COMPUTERIZED := 2;
     k_XDEBUG_TRACE_HTML := 4;
     k_XDEBUG_TRACE_NAKED_FILENAME := 8;
     k_XDEBUG_PROFILE_APPEND := 1 |}.

Definition sample_cfg : XDebugExtension :=
  {| Enable := true; TraceOptions := 0; TraceFormat := 0;
     TraceOutputDir := "/tmp"; TraceOutputName := "trace.%p";
     ProfilerAppend := false;
     ProfilerOutputDir := "/tmp"; ProfilerOutputName := "cachegrind.out.%p";
     CollectMemory := false; CollectTime := false;
     ProfilerEnable := false; ProfilerEnableTrigger := true;
     ProfilerTrigger := "XDEBUG_PROFILE";
     AutoTrace := false; TraceEnableTrigger := true;
     TraceTrigger := "XDEBUG_TRACE" |}.

(** [sample_cfg] with [auto_trace] switched on. *)
Definition auto_trace_cfg : XDebugExtension :=
  {| Enable := true; TraceOptions := 0; TraceFormat := 0;
     TraceOutputDir := "/tmp"; TraceOutputName := "trace.%p";
     ProfilerAppend := false;
     ProfilerOutputDir := "/tmp"; ProfilerOutputName := "cachegrind.out.%p";
     CollectMemory := false; CollectTime := false;
     ProfilerEnable := false; ProfilerEnableTrigger := true;
     ProfilerTrigger := "XDEBUG_PROFILE";
     AutoTrace := true; TraceEnableTrigger := true;
     TraceTrigger := "XDEBUG_TRACE" |}.

Definition request_with (vars : Array) (ini : gmap string string) : Ambient :=
  {| globals := vars; ini_settings := ini;
     getCwd := "/var/www"; f_crc32 := λ _, 3632233996; getpid := 1234;
     f_rand := λ n, 255 + Z.of_nat n; time := λ n, 1400000000 + Z.of_nat n;
     gettimeofday := λ n, Some (1400000000 + Z.of_nat n, 42);
     isNested := false |}.

(** A request for [/index.php?x=1] with no cookies and no session name. *)
Definition sample_env : Ambient :=
  request_with
    {[ "_SERVER" := VArr {[ "SCRIPT_NAME" := VStr "/index.php";
                            "REQUEST_URI" := VStr "/index.php?x=1";
                            "HTTP_HOST" := VStr "example.org" ]};
       "_GET" := VArr {[ "x" := VStr "1" ]} ]}
    ∅.

(** A request whose [$_COOKIE] carries the session id and both trigger
    keys, with [session.name] configured. *)
Definition cookie_env : Ambient :=
  request_with
    {[ "_SERVER" := VArr {[ "SCRIPT_NAME" := VStr "/index.php" ]};
       "_COOKIE" := VArr {[ "PHPSESSID" := VStr "a.b/c";
                            "XDEBUG_PROFILE" := VStr "1";
                            "XDEBUG_TRACE" := VStr "1" ]} ]}
    {[ "session.name" := "PHPSESSID" ]}.

(** The same trigger key sent as a GET parameter instead. *)
Definition get_trigger_env : Ambient :=
  request_with {[ "_GET" := VArr {[ "XDEBUG_PROFILE" := VStr "1" ]} ]} ∅.

(** [sample_env] with a global variable named [REQUEST_URI] next to the
    superglobals. *)
Definition uri_global_env : Ambient :=
  request_with
    {[ "_SERVER" := VArr {[ "SCRIPT_NAME" := VStr "/index.php";
                            "REQUEST_URI" := VStr "/index.php?x=1" ]};
       "REQUEST_URI" := VBool true ]}
    ∅.

(** [cookie_env] with the cookies stored under the name [s_COOKIE] spells. *)
Definition misnamed_cookie_env : Ambient :=
  request_with
    {[ "_COOOKIE" := VArr {[ "PHPSESSID" := VStr "a.b/c";
                             "XDEBUG_PROFILE" := VStr "1" ]} ]}
    {[ "session.name" := "PHPSESSID" ]}.

Definition sample_thread : Thread :=
  {| s_request := {| m_profiler_attached := false; m_init_time := 1400000000000000 |};
     s_profiler_factory := None;
     m_coverage_flag := false; m_coverage := {[ "/index.php" := [3; 4] ]};
     calls := 0; notices := []; lifecycle := [] |}.

(** [sample_thread] with the profiler of another extension bound. *)
Definition busy_thread : Thread := set_factory (Some OtherProfiler) sample_thread.

Definition with_profiler (p : XDebugProfiler) (log : list LifecycleEvent) : Thread :=
  {| s_request := {| m_profiler_attached := true; m_init_time := 1400000000000000 |};
     s_profiler_factory := Some (XDebug p);
     m_coverage_flag := false; m_coverage := {[ "/index.php" := [3; 4] ]};
     calls := 0; notices := []; lifecycle := log |}.

(** Attached and tracing to [/tmp/trace.1234.xt]. *)
Definition tracing_thread : Thread :=
  with_profiler (enableTracing "/tmp/trace.1234.xt" 0 new_XDebugProfiler) [Attached].

(** Attached and profiling, no trace. *)
Definition profiling_thread : Thread :=
  with_profiler (enableProfiling "/tmp/cachegrind.out.1234" 0 new_XDebugProfiler)
    [Attached].

(** Detached again after an automatic trace was stopped. *)
Definition stopped_thread : Thread :=
  {| s_request := {| m_profiler_attached := false; m_init_time := 1400000000000000 |};
     s_profiler_factory := None;
     m_coverage_flag := false; m_coverage := {[ "/index.php" := [3; 4] ]};
     calls := 0; notices := []; lifecycle := [Detached; Attached] |}.


(** ** Further builtins and hooks *)

Section Surface.

Context {K : XDebugConstants}.
Variable cfg : XDebugExtension.
Variable env : Ambient.

(** The callback [moduleLoad] binds to a profiler ini setting: [set] is the
    profiler's setter for that setting ([set##sym]). *)
Definition profiler_setting_changed {T : Type}
    (set : T → XDebugProfiler → XDebugProfiler) (val : T) : M bool :=
  do t <- get;
  do _ <- when (attached t)
            (do _ <- xdebug_profiler;
             do _ <- profiler_call (set val);
             detach_xdebug_profiler_if_needed);
  ret true.

(** [Report] is [CodeCoverage::Report (false)], the accumulated data as an
    array; it is declared outside this file and taken as given. *)
Definition xdebug_get_code_coverage (Report : CodeCoverage → Array) : M Array :=
  do t <- get;
  if m_coverage_flag t then ret (Report (m_coverage t))
  else ret ∅.

(** What a script can call, and the two hooks that run without a script. *)
Inductive Builtin : Type :=
  | CallStartTrace (traceFileVar : variant) (options : Z)
  | CallStopTrace
  | CallGetTracefileName
  | CallGetProfilerFilename
  | CallStartCodeCoverage (options : Z)
  | CallStopCodeCoverage (cleanup : bool)
  | CallCodeCoverageStarted
  | CallGetCodeCoverage (Report : CodeCoverage → Array)
  | SetCollectMemory (val : bool)
  | SetCollectTime (val : bool)
  | RequestShutdown.

Definition call (b : Builtin) : M unit :=
  match b with
  | CallStartTrace f options => do _ <- xdebug_start_trace cfg env f options; ret tt
  | CallStopTrace => do _ <- xdebug_stop_trace; ret tt
  | CallGetTracefileName => do _ <- xdebug_get_tracefile_name; ret tt
  | CallGetProfilerFilename => do _ <- xdebug_get_profiler_filename; ret tt
  | CallStartCodeCoverage options => xdebug_start_code_coverage env options
  | CallStopCodeCoverage cleanup => xdebug_stop_code_coverage cleanup
  | CallCodeCoverageStarted => do _ <- xdebug_code_coverage_started; ret tt
  | CallGetCodeCoverage Report => do _ <- xdebug_get_code_coverage Report; ret tt
  | SetCollectMemory val => do _ <- profiler_setting_changed setCollectMemory val; ret tt
  | SetCollectTime val => do _ <- profiler_setting_changed setCollectTime val; ret tt
  | RequestShutdown => XDebugExtension_requestShutdown cfg
  end.

(** As [run], for the calls of a script. *)
Fixpoint run_calls (bs : list Builtin) (t : Thread) : option Thread :=
  match bs with
  | [] => Some t
  | b :: bs =>
      match call b t with
      | Ok _ t' | Throw _ t' => run_calls bs t'
      | Abort => None
      end
  end.

End Surface.

(** ** Call frames *)

(** Of a [Func], what the builtins below ask it.  [lookupVarId] answers
    with the id of a local variable name. *)
Record Func : Type := {
  name : string;
  cls : option string;                  (* the name of the class, if any *)
  filename : string;
  isPseudoMain : bool;
  getLineNumber : Z → Z;                (* unit()->getLineNumber(pc) *)
  localVarNames : list string;          (* localVarName(i), i < numNamedLocals() *)
  lookupVarId : string → Z
}.

Record ActRec : Type := { m_func : Func }.

(** The frames [g_context->getPrevVMState] yields one after the other when
    started from [vmfp()], each with the pc offset of the call made in it. *)
Abbreviation PrevFrames := (list (ActRec * Z)).

Definition s_CALL_FN_MAIN : string := "{main}".
Definition s_closure_varname : string := "0Closure".

(** The frame of the callee's callee and the offset of its call; [None]
    when an [assert] fails, [Some None] for [nullptr]. *)
Definition get_call_fp (prev : PrevFrames) : option (option (ActRec * Z)) :=
  match prev with
  | [] => None
  | (fp0, _) :: older =>
      match older with
      | fp1 :: _ => Some (Some fp1)
      | [] => if isPseudoMain (m_func fp0) then Some None else None
      end
  end.

Definition xdebug_call_class (prev : PrevFrames) : option variant :=
  fp ← get_call_fp prev;
  match fp with
  | None => Some (VBool false)
  | Some (fp, _) =>
      match cls (m_func fp) with
      | None => Some (VStr "")
      | Some c => Some (VStr c)
      end
  end.

Definition xdebug_call_file (prev : PrevFrames) : option string :=
  fp ← get_call_fp prev;
  match fp with
  | None => fp0 ← head prev; Some (filename (m_func fp0.1))
  | Some (fp, _) => Some (filename (m_func fp))
  end.

Definition xdebug_call_line (prev : PrevFrames) : option Z :=
  fp ← get_call_fp prev;
  match fp with
  | None => Some 0
  | Some (fp, pc) => Some (getLineNumber (m_func fp) pc)
  end.

Definition xdebug_call_function (prev : PrevFrames) : option variant :=
  fp ← get_call_fp prev;
  match fp with
  | None => Some (VBool false)
  | Some (fp, _) =>
      if isPseudoMain (m_func fp) then Some (VStr s_CALL_FN_MAIN)
      else Some (VStr (name (m_func fp)))
  end.

(** The loop of [xdebug_get_declared_vars] from index [i] on, [names] being
    the names from [i] on and [vars] the packed array so far. *)
Fixpoint declared_vars_loop (func : Func) (i : nat) (names vars : list string)
    : option (list string) :=
  match names with
  | [] => Some vars
  | varname :: names =>
      if decide (lookupVarId func varname = Z.of_nat i) then
        declared_vars_loop func (S i) names
          (if decide (s_closure_varname = varname) then vars else vars ++ [varname])
      else None
  end.

(** The packed array is given as the list of its elements, element [i]
    under key [i]. *)
Definition xdebug_get_declared_vars (prev : PrevFrames) : option (list string) :=
  fp ← head prev;
  declared_vars_loop (m_func fp.1) 0 (localVarNames (m_func fp.1)) [].

(** ** Sample frames *)

Definition main_func : Func :=
  {| name := ""; cls := None; filename := "/var/www/index.php";
     isPseudoMain := true; getLineNumber := λ pc, 10 + pc;
     localVarNames := []; lookupVarId := λ _, -1 |}.

Definition handler_func : Func :=
  {| name := "handle"; cls := Some "Controller";
     filename := "/var/www/lib/controller.php";
     isPseudoMain := false; getLineNumber := λ pc, 20 + pc;
     localVarNames := ["request"; "0Closure"; "result"];
     lookupVarId := λ v,
       if decide (v = "request") then 0
       else if decide (v = "0Closure") then 1
       else if decide (v = "result") then 2 else -1 |}.

(** [handle], called from the top-level file at offset 5, is the caller of
    the builtin. *)
Definition sample_frames : PrevFrames :=
  [({| m_func := handler_func |}, 3); ({| m_func := main_func |}, 5)].

(** Attached, tracing and profiling. *)
Definition busy_profiler_thread : Thread :=
  with_profiler
    (enableTracing "/tmp/trace.1234.xt" 0
       (enableProfiling "/tmp/cachegrind.out.1234" 0 new_XDebugProfiler))
    [Attached].

(** Attached with nothing to collect. *)
Definition idle_thread : Thread := with_profiler new_XDebugProfiler [Attached].

(** [sample_cfg] with profiling switched on. *)
Definition profiler_cfg : XDebugExtension :=
  {| Enable := true; TraceOptions := 1; TraceFormat := 1;
     TraceOutputDir := "/tmp"; TraceOutputName := "trace.%p";
     ProfilerAppend := true;
     ProfilerOutputDir := "/tmp"; ProfilerOutputName := "cachegrind.out.%p";
     CollectMemory := true; CollectTime := false;
     ProfilerEnable := true; ProfilerEnableTrigger := false;
     ProfilerTrigger := "XDEBUG_PROFILE";
     AutoTrace := false; TraceEnableTrigger := false;
     TraceTrigger := "XDEBUG_TRACE" |}.


(** * Properties *)

Arguments format_filename : simpl never.

Ltac unfold_ops :=
  unfold xdebug_start_trace, xdebug_stop_trace, XDebugExtension_requestShutdown,
    XDebugExtension_requestInit, xdebug_start_code_coverage, xdebug_memory_usage,
    detach_xdebug_profiler_if_needed, detach_xdebug_profiler,
    attach_xdebug_profiler, xdebug_get_tracefile_name, start_tracing,
    start_profiling, xdebug_profiler, profiler_call, ProfilerFactory_start,
    ProfilerFactory_stop, raise_error, raise_notice, throw, when, assert,
    modify, get, bind, ret.

(** ** Rules for [preserves] *)

Section Preservation.

Context {A B : Type} (P : Thread → Prop).

Lemma preserves_ret (a : A) : preserves (ret a) P.
Proof. intros t Ht. exact Ht. Qed.

Lemma preserves_get : preserves get P.
Proof. intros t Ht. exact Ht. Qed.

Lemma preserves_assert b : preserves (assert b) P.
Proof. intros t Ht. unfold assert. by destruct b. Qed.

Lemma preserves_bind (m : M A) (k : A → M B) :
  preserves m P → (∀ a, preserves (k a) P) → preserves (bind m k) P.
Proof.
  intros Hm Hk t Ht. unfold bind. specialize (Hm t Ht).
  destruct (m t) as [a t'|e t'|]; simpl in *; [by apply Hk|done|done].
Qed.

Lemma preserves_get_bind (k : Thread → M B) :
  (∀ t, P t → after (k t t) P) → preserves (bind get k) P.
Proof. intros Hk t Ht. unfold bind, get. by apply Hk. Qed.

Lemma preserves_when b (m : M unit) : preserves m P → preserves (when b m) P.
Proof. intros Hm. destruct b; [exact Hm|]. intros t Ht. exact Ht. Qed.

End Preservation.

(** ** The attachment flag *)

Section Lifecycle.

Context {K : XDebugConstants}.
Variable cfg : XDebugExtension.
Variable env : Ambient.

Lemma alternating_cons e l :
  alternating l → head l ≠ Some e → alternating (e :: l).
Proof.
  destruct l as [|e' l]; simpl; [done|].
  intros H Hne. split; [congruence|done].
Qed.

Lemma accurate_set_calls n t : accurate t → accurate (set_calls n t).
Proof. by destruct t. Qed.

Lemma accurate_profiler f p t :
  s_profiler_factory t = Some (XDebug p) →
  accurate t → accurate (set_factory (Some (XDebug (f p))) t).
Proof.
  destruct t as [r fac cf cd n nt lg]. unfold accurate, attached. simpl.
  intros -> (H1 & H2 & H3). split_and!; [done| |done].
  rewrite H2. split; intros _; eauto.
Qed.

Lemma accurate_attach t :
  accurate t → attached t = false → s_profiler_factory t = None →
  accurate (add_event Attached
              (set_attached true (set_factory (Some (XDebug new_XDebugProfiler)) t))).
Proof.
  destruct t as [[att tm] fac cf cd n nt lg]. unfold accurate, attached. simpl.
  intros (H1 & H2 & H3) -> _. split_and!; [done|split; eauto|].
  apply alternating_cons; [done|]. intros E. apply H1 in E. discriminate.
Qed.

Lemma accurate_detach t :
  accurate t → attached t = true →
  accurate (add_event Detached (set_attached false (set_factory None t))).
Proof.
  destruct t as [[att tm] fac cf cd n nt lg]. unfold accurate, attached. simpl.
  intros (H1 & H2 & H3) ->. split_and!.
  - split; discriminate.
  - split; [discriminate|]. by intros [p ?].
  - apply alternating_cons; [done|]. destruct H1 as [H1 _]. by rewrite H1.
Qed.

Lemma fresh_accurate t : fresh t → accurate t.
Proof.
  destruct t as [[att tm] fac cf cd n nt lg]. unfold fresh, accurate, attached. simpl.
  intros (-> & -> & Hf). split_and!; [done| |done].
  split; [done|]. intros [p Hp]. destruct Hf; congruence.
Qed.

Lemma profiler_call_accurate f : preserves (profiler_call f) accurate.
Proof.
  intros t Ht. unfold profiler_call, bind, get, modify.
  destruct (s_profiler_factory t) as [[p|]|] eqn:E; simpl; [|done|done].
  by eapply accurate_profiler.
Qed.

Lemma xdebug_profiler_accurate : preserves xdebug_profiler accurate.
Proof.
  intros t Ht. unfold xdebug_profiler, bind, get, assert.
  destruct (attached t); [|done].
  by destruct (s_profiler_factory t) as [[p|]|].
Qed.

Lemma start_tracing_accurate f o : preserves (start_tracing cfg env f o) accurate.
Proof.
  apply preserves_get_bind. intros t Ht. unfold bind, modify.
  by apply profiler_call_accurate, accurate_set_calls.
Qed.

Lemma start_profiling_accurate : preserves (start_profiling cfg env) accurate.
Proof.
  apply preserves_get_bind. intros t Ht. unfold bind, modify.
  by apply profiler_call_accurate, accurate_set_calls.
Qed.

Lemma attach_accurate : preserves (attach_xdebug_profiler cfg env) accurate.
Proof.
  assert (preserves
            (do _ <- xdebug_profiler;
             do _ <- when (isProfilingNeeded cfg env) (start_profiling cfg env);
             do _ <- when (isTracingNeeded cfg env) (start_tracing cfg env None 0);
             do _ <- profiler_call (setCollectMemory (CollectMemory cfg));
             profiler_call (setCollectTime (CollectTime cfg))) accurate) as Hrest.
  { apply preserves_bind; [apply xdebug_profiler_accurate|intros _].
    apply preserves_bind; [apply preserves_when, start_profiling_accurate|intros _].
    apply preserves_bind; [apply preserves_when, start_tracing_accurate|intros _].
    apply preserves_bind; [apply profiler_call_accurate|intros _].
    apply profiler_call_accurate. }
  intros t Ht. unfold attach_xdebug_profiler.
  unfold bind at 1, get. unfold bind at 1, assert.
  destruct (attached t) eqn:Ea; simpl; [done|].
  unfold bind at 1, ProfilerFactory_start, get. unfold bind at 1.
  destruct (s_profiler_factory t) as [q|] eqn:Ef; simpl; [exact Ht|].
  exact (Hrest _ (accurate_attach t Ht Ea Ef)).
Qed.

Lemma detach_accurate : preserves detach_xdebug_profiler accurate.
Proof.
  intros t Ht. unfold detach_xdebug_profiler, bind, get, assert.
  destruct (attached t) eqn:Ea; simpl; [|done].
  by apply accurate_detach.
Qed.

Lemma detach_if_needed_accurate :
  preserves detach_xdebug_profiler_if_needed accurate.
Proof.
  unfold detach_xdebug_profiler_if_needed.
  apply preserves_bind; [apply preserves_get|intros t0].
  apply preserves_bind; [apply preserves_assert|intros _].
  apply preserves_bind; [apply xdebug_profiler_accurate|intros p].
  apply preserves_when, detach_accurate.
Qed.

Lemma start_trace_accurate f o : preserves (xdebug_start_trace cfg env f o) accurate.
Proof.
  unfold xdebug_start_trace.
  apply preserves_bind; [apply preserves_get|intros t0].
  apply preserves_bind; [apply preserves_when, attach_accurate|intros _].
  apply preserves_bind; [apply xdebug_profiler_accurate|intros p].
  destruct (isTracing p); [apply preserves_ret|].
  apply preserves_bind; [apply start_tracing_accurate|intros _].
  apply preserves_bind; [apply profiler_call_accurate|intros _].
  unfold xdebug_get_tracefile_name.
  apply preserves_bind; [apply preserves_get|intros t1].
  destruct (attached t1); [|apply preserves_ret].
  apply preserves_bind; [apply xdebug_profiler_accurate|intros p'].
  destruct (isTracing p'); apply preserves_ret.
Qed.

Lemma stop_trace_accurate : preserves xdebug_stop_trace accurate.
Proof.
  unfold xdebug_stop_trace.
  apply preserves_bind; [apply preserves_get|intros t0].
  destruct (attached t0); [|apply preserves_ret].
  apply preserves_bind; [apply xdebug_profiler_accurate|intros p].
  destruct (isTracing p); [|apply preserves_ret].
  apply preserves_bind; [apply profiler_call_accurate|intros _].
  apply preserves_bind; [apply detach_if_needed_accurate|intros _].
  apply preserves_ret.
Qed.

Lemma requestShutdown_accurate :
  preserves (XDebugExtension_requestShutdown cfg) accurate.
Proof.
  apply preserves_bind; [apply preserves_get|intros t0].
  apply preserves_when, detach_accurate.
Qed.

Lemma exec_accurate o : preserves (exec cfg env o) accurate.
Proof.
  destruct o; simpl.
  - apply attach_accurate.
  - apply detach_accurate.
  - apply detach_if_needed_accurate.
  - apply preserves_bind; [apply start_trace_accurate|intros; apply preserves_ret].
  - apply preserves_bind; [apply stop_trace_accurate|intros; apply preserves_ret].
  - apply requestShutdown_accurate.
Qed.

Lemma run_accurate ops :
  ∀ t t', accurate t → run cfg env ops t = Some t' → accurate t'.
Proof.
  induction ops as [|o ops IH]; simpl; intros t t' Ht Hrun.
  - congruence.
  - pose proof (exec_accurate o t Ht) as Ho.
    destruct (exec cfg env o t) as [[] t1|e t1|]; simpl in Ho;
      [by eapply IH..|done].
Qed.

Lemma requestShutdown_detaches t :
  accurate t → Enable cfg = true →
  ∃ t', XDebugExtension_requestShutdown cfg t = Ok tt t' ∧
        attached t' = false ∧ bound t' = None.
Proof.
  intros Ht He.
  pose proof (requestShutdown_accurate t Ht) as Ha. revert Ha.
  unfold XDebugExtension_requestShutdown, bind, get. rewrite He. simpl.
  assert (∀ t', accurate t' → attached t' = false → bound t' = None) as Hb.
  { intros t' (_ & H2 & _) Hd. unfold bound.
    destruct (s_profiler_factory t') as [[p|]|] eqn:E; [|done..].
    destruct H2 as [_ H2]. rewrite H2 in Hd by eauto. discriminate Hd. }
  destruct (attached t) eqn:Ea; simpl; [|by eauto].
  unfold detach_xdebug_profiler, bind, get, assert. rewrite Ea. simpl.
  intros Ha. eexists. split; [reflexivity|]. split; [done|]. by apply Hb.
Qed.

(** The builtins and the shutdown hook check the flag before they attach or
    detach: on an accurate thread none of them stops the process. *)
Lemma builtin_never_aborts o t :
  is_builtin o = true → accurate t → exec cfg env o t ≠ Abort.
Proof.
  destruct t as [[att tm] fac cf cd n nt lg]. unfold accurate, attached. simpl.
  intros Ho (H1 & H2 & H3).
  assert (att = true → ∃ p, fac = Some (XDebug p)) as Hp by (intros ->; by apply H2).
  assert (att = false → fac = None ∨ fac = Some OtherProfiler) as Hn.
  { intros ->. destruct fac as [[p|]|]; eauto. destruct H2 as [_ H2].
    discriminate H2. eauto. }
  clear H1 H2 H3.
  destruct o; try discriminate Ho; clear Ho; simpl; destruct att.
  - destruct Hp as [[tr tf to pr pf po cm ct fr] ->]; [done|].
    unfold_ops. simpl. destruct tr; simpl; [done|].
    by destruct (isString traceFileVar).
  - destruct Hn as [-> | ->]; [done| |]; unfold_ops; simpl; [|done].
    destruct (isProfilingNeeded cfg env), (isTracingNeeded cfg env); simpl; try done;
      by destruct (isString traceFileVar).
  - destruct Hp as [[tr tf to pr pf po cm ct fr] ->]; [done|].
    unfold_ops. simpl. destruct tr; simpl; [|done]. by destruct pr.
  - done.
  - destruct Hp as [p ->]; [done|]. unfold_ops. simpl. by destruct (Enable cfg).
  - unfold_ops. simpl. by destruct (Enable cfg).
Qed.

Lemma builtins_run ops :
  ∀ t, Forall (λ o, is_builtin o = true) ops → accurate t →
       is_Some (run cfg env ops t).
Proof.
  induction ops as [|o ops IH]; simpl; intros t Hb Ht; [by eauto|].
  inversion Hb as [|? ? Ho Hops]; subst.
  pose proof (exec_accurate o t Ht) as Ha.
  pose proof (builtin_never_aborts o t Ho Ht) as Hne.
  destruct (exec cfg env o t) as [[] t1|e t1|]; simpl in Ha; [by apply IH..|done].
Qed.

(** C1: from the start of a request, after any sequence of attach, detach,
    detach-if-idle, explicit start-trace, explicit stop-trace and request
    shutdown, [m_profiler_attached] is true exactly when the newest
    life-cycle event is a completed attach, which is exactly when the
    factory holds the xdebug profiler; attaches and detaches alternate in
    the log; and a request shutdown with the extension enabled returns with
    the flag false and no xdebug profiler bound. *)
Theorem attachment_flag_accurate ops t t' :
  fresh t → run cfg env ops t = Some t' →
  (attached t' = true ↔ head (lifecycle t') = Some Attached) ∧
  (attached t' = true ↔ ∃ p, s_profiler_factory t' = Some (XDebug p)) ∧
  alternating (lifecycle t') ∧
  (Enable cfg = true →
   ∃ t'', XDebugExtension_requestShutdown cfg t' = Ok tt t'' ∧
          attached t'' = false ∧ bound t'' = None).
Proof.
  intros Hf Hrun.
  assert (accurate t') as Ht' by (eapply run_accurate; [by apply fresh_accurate|done]).
  destruct Ht' as (H1 & H2 & H3). split_and!; [done..|].
  by apply requestShutdown_detaches.
Qed.

End Lifecycle.

(** ** Explicit trace start and stop *)

Section Tracing.

Context {K : XDebugConstants}.
Variable cfg : XDebugExtension.
Variable env : Ambient.

(** The path an explicit trace start resolves: the caller's template with
    no directory, or the configured directory and template. *)
Lemma start_trace_begins v options t :
  idle t ∨ attachable cfg env t →
  let resolved :=
    if isString v
    then format_filename env (calls_before_trace cfg env t) None (toString v)
           (trace_suffix cfg options)
    else format_filename env (calls_before_trace cfg env t)
           (Some (TraceOutputDir cfg)) (TraceOutputName cfg)
           (trace_suffix cfg options) in
  ∃ t1 p,
    xdebug_start_trace cfg env v options t = Ok (VStr resolved.1) t1 ∧
    attached t1 = true ∧ bound t1 = Some p ∧ isTracing p = true ∧
    getTracingFilename p = resolved.1 ∧
    m_tracingOpts p = trace_options cfg options.
Proof.
  unfold idle, attachable, bound, calls_before_trace, trace_suffix, attached.
  destruct t as [[att tm] fac cf cd n nt lg]. simpl.
  intros [(-> & p & Hp & Htr)|(-> & -> & Hn)].
  - destruct fac as [[q|]|]; simplify_eq.
    destruct p as [tr tf to pr pf po cm ct fr]. simpl in Htr. subst tr.
    unfold_ops. simpl.
    destruct (isString v); simpl; do 2 eexists; (split; [reflexivity|]); done.
  - unfold_ops. simpl. rewrite Hn. simpl.
    destruct (isProfilingNeeded cfg env); simpl;
      destruct (isString v); simpl; do 2 eexists; (split; [reflexivity|]); done.
Qed.

(** Stopping an active trace returns its file name and leaves no trace
    active: the profiler is detached, or it goes on profiling. *)
Lemma stop_trace_ends t p :
  attached t = true → bound t = Some p → isTracing p = true →
  ∃ t2, xdebug_stop_trace t = Ok (VStr (getTracingFilename p)) t2 ∧
        tracing t2 = false ∧
        xdebug_get_tracefile_name t2 = Ok (VBool false) t2.
Proof.
  unfold bound, tracing, attached.
  destruct t as [[att tm] fac cf cd n nt lg]. simpl. intros -> Hp Htr.
  destruct fac as [[q|]|]; simplify_eq.
  destruct p as [tr tf to pr pf po cm ct fr]. simpl in Htr. subst tr.
  unfold_ops. simpl. destruct pr; simpl; eexists; (split; [reflexivity|]); done.
Qed.

Lemma stop_trace_noop t :
  attached t = false ∨ idle t → xdebug_stop_trace t = Ok (VBool false) t.
Proof.
  unfold idle, bound, attached.
  destruct t as [[att tm] fac cf cd n nt lg]. simpl.
  intros [-> | (-> & p & Hp & Htr)]; [done|].
  destruct fac as [[q|]|]; simplify_eq.
  unfold_ops. simpl. unfold isTracing in *. by rewrite Htr.
Qed.

(** C2, amended: for any file name [f] and options 0, from a thread that is
    attached without a trace, or detached with the factory slot free and no
    trace needed by configuration, start-trace returns the path resolved
    for [f] (no directory), the stop-trace that follows returns that same
    path, and then no trace is active and the trace file name query
    answers false; stop-trace on a thread that is not attached, or attached
    without a trace, returns false and leaves the thread as it was. *)
Theorem trace_round_trip f t :
  (idle t ∨ attachable cfg env t →
   let path :=
     (format_filename env (calls_before_trace cfg env t) None f
        (trace_suffix cfg 0)).1 in
   ∃ t1 t2,
     xdebug_start_trace cfg env (VStr f) 0 t = Ok (VStr path) t1 ∧
     xdebug_stop_trace t1 = Ok (VStr path) t2 ∧
     tracing t2 = false ∧
     xdebug_get_tracefile_name t2 = Ok (VBool false) t2) ∧
  (attached t = false ∨ idle t → xdebug_stop_trace t = Ok (VBool false) t).
Proof.
  split; [|apply stop_trace_noop].
  intros Ht.
  destruct (start_trace_begins (VStr f) 0 t Ht)
    as (t1 & p & Hstart & Hatt & Hp & Htr & Hname & _).
  simpl in Hstart, Hname.
  destruct (stop_trace_ends t1 p Hatt Hp Htr) as (t2 & Hstop & Hoff & Hq).
  rewrite Hname in Hstop. by exists t1, t2.
Qed.

(** On which threads start-trace throws, and what. *)
Lemma start_trace_throws v options t e t' :
  xdebug_start_trace cfg env v options t = Throw e t' →
  e = FatalError attach_failed ∧ t' = t ∧
  attached t = false ∧ is_Some (s_profiler_factory t).
Proof.
  unfold attached. destruct t as [[att tm] fac cf cd n nt lg]. simpl.
  destruct att.
  - destruct fac as [[[tr tf to pr pf po cm ct fr]|]|]; unfold_ops; simpl;
      [|done..]. destruct tr; simpl; [done|]. by destruct (isString v).
  - destruct fac as [q|]; unfold_ops; simpl.
    + intros [= <- <-]. by eauto.
    + destruct (isProfilingNeeded cfg env), (isTracingNeeded cfg env); simpl; try done;
        by destruct (isString v).
Qed.

(** C7: when the attached profiler is already tracing, start-trace returns
    false and leaves the whole thread, and so the running trace's file name
    and options, as it was; and the only error start-trace ever throws is
    the attach failure, thrown from a detached thread whose factory slot is
    taken. *)
Theorem start_trace_already_tracing v options t :
  (∀ p, attached t = true → bound t = Some p → isTracing p = true →
        xdebug_start_trace cfg env v options t = Ok (VBool false) t) ∧
  (∀ e t', xdebug_start_trace cfg env v options t = Throw e t' →
           e = FatalError attach_failed ∧ t' = t ∧
           attached t = false ∧ is_Some (s_profiler_factory t)).
Proof.
  split; [|apply start_trace_throws].
  unfold bound, attached. destruct t as [[att tm] fac cf cd n nt lg]. simpl.
  intros p -> Hp Htr. destruct fac as [[q|]|]; simplify_eq.
  unfold_ops. simpl. unfold isTracing in *. by rewrite Htr.
Qed.

(** C10: a trace-file argument that is not a string is treated as no
    argument at all: the call does what it does for null, and where it
    starts a trace the path is resolved from the configured trace output
    directory and name template. *)
Theorem start_trace_non_string v options t :
  isString v = false →
  xdebug_start_trace cfg env v options t = xdebug_start_trace cfg env VNull options t ∧
  (idle t ∨ attachable cfg env t →
   let path :=
     (format_filename env (calls_before_trace cfg env t)
        (Some (TraceOutputDir cfg)) (TraceOutputName cfg)
        (trace_suffix cfg options)).1 in
   ∃ t1 p,
     xdebug_start_trace cfg env v options t = Ok (VStr path) t1 ∧
     bound t1 = Some p ∧ isTracing p = true ∧ getTracingFilename p = path).
Proof.
  intros Hv. split.
  - unfold xdebug_start_trace. by rewrite Hv.
  - intros Ht.
    destruct (start_trace_begins v options t Ht)
      as (t1 & p & Hstart & _ & Hp & Htr & Hname & _).
    rewrite Hv in Hstart, Hname. by exists t1, p.
Qed.

(** C6: with nonzero options start-code-coverage throws the unsupported
    option error and the thread, coverage flag and coverage data included,
    is as before; with options 0 the coverage flag is true when the builtin
    leaves through the mode switch, and the coverage data are as before. *)
Theorem start_code_coverage_guard options t :
  (options ≠ 0 →
   xdebug_start_code_coverage env options t = Throw (FatalError coverage_unsupported) t) ∧
  (options = 0 →
   ∃ t', xdebug_start_code_coverage env options t = Throw VMSwitchModeBuiltin t' ∧
         m_coverage_flag t' = true ∧ m_coverage t' = m_coverage t).
Proof.
  unfold xdebug_start_code_coverage. split; intros Ho.
  - by destruct (decide (options ≠ 0)).
  - destruct (decide (options ≠ 0)); [done|].
    unfold_ops. destruct (isNested env); simpl; by eexists.
Qed.

(** C9: whenever the assertion on the reading holds, so for every reading
    under jemalloc, [xdebug_memory_usage] returns the maximum of the
    reading and zero, which is not negative, and leaves the thread alone. *)
Theorem memory_usage_not_negative use_jemalloc usage t :
  use_jemalloc = true ∨ 0 ≤ usage →
  xdebug_memory_usage use_jemalloc usage t = Ok (Z.max usage 0) t ∧
  0 ≤ Z.max usage 0.
Proof.
  intros H. split; [|lia].
  unfold_ops. destruct H as [-> | H]; [done|].
  rewrite bool_decide_true by done. by rewrite orb_true_r.
Qed.

End Tracing.

(** ** The templater *)

Section Templater.

Variable env : Ambient.

Lemma special_char_replaced c :
  special_char (if special_char c then "_"%char else c) = false.
Proof. by destruct (special_char c) eqn:E. Qed.

(** No special character survives the sanitizer. *)
Lemma replace_special_chars_clean str :
  Forall (λ c, special_char c = false)
    (list_ascii_of_string (replace_special_chars str)).
Proof.
  induction str as [|c str IH]; simpl; constructor; [|done].
  apply special_char_replaced.
Qed.

Lemma replace_special_chars_length str :
  String.length (replace_special_chars str) = String.length str.
Proof. induction str as [|c str IH]; simpl; congruence. Qed.

Lemma append_String s c str : String c s +:+ str = String c (s +:+ str).
Proof. reflexivity. Qed.

Lemma append_empty_r s : s +:+ "" = s.
Proof. induction s as [|a s IH]; [done|]. by rewrite append_String, IH. Qed.

Lemma append_String_assoc s c str :
  (s +:+ String c "") +:+ str = s +:+ String c str.
Proof. induction s as [|a s IH]; [done|]. by rewrite !append_String, IH. Qed.

Lemma buf_char_append b c s :
  buf_append (buf_char b c) s = buf_append b (String c s).
Proof.
  destruct b as [s0 n]. unfold buf_append, buf_char. simpl.
  by rewrite append_String_assoc.
Qed.

(** Characters other than [%] are copied one by one. *)
Lemma format_loop_plain pre :
  Forall (λ c, c ≠ "%"%char) (list_ascii_of_string pre) →
  ∀ rest b, format_loop env (pre +:+ rest) b = format_loop env rest (buf_append b pre).
Proof.
  induction pre as [|c pre IH]; intros Hpre rest b.
  - destruct b as [s n]. unfold buf_append. simpl. by rewrite append_empty_r.
  - inversion Hpre as [|? ? Hc Hpre']; subst.
    rewrite append_String, <- buf_char_append, <- IH by done.
    simpl. destruct (pre +:+ rest) as [|c' rest'] eqn:E; [done|].
    by rewrite decide_True.
Qed.

(** C8: at any position of the scan, a [%] followed by a character that has
    no case of its own puts the [%] and that character into the buffer and
    goes on behind them; a [%] that is the last character of the template
    is put into the buffer; [%%] puts one [%] into the buffer; and the
    template [%q] resolves to [%q], behind the directory and before the
    suffix if there are any. *)
Theorem unrecognized_directive_literal c rest b n :
  (is_directive c = false →
   format_loop env (String "%" (String c rest)) b
   = format_loop env rest (buf_char (buf_char b "%") c)) ∧
  format_loop env "%" b = buf_char b "%" ∧
  format_loop env (String "%" (String "%" rest)) b
  = format_loop env rest (buf_char b "%") ∧
  format_filename env n None "%q" false = ("%q", n) ∧
  format_filename env n (Some "/tmp") "%q" true = ("/tmp/%q.xt", n).
Proof.
  split_and!; [|done..].
  intros Hc. simpl.
  destruct c as [[] [] [] [] [] [] [] []]; first [discriminate Hc | reflexivity].
Qed.

End Templater.

(** ** The cookie map, the session directive and the request URI *)

Section Superglobals.

Variable env : Ambient.

(** [%S] with no session name configured. *)
Lemma session_directive_without_name b :
  IniSetting_Get env s_SESSION_NAME = None →
  format_directive env "S" b = buf_char b "%".
Proof. intros H. simpl. by rewrite H. Qed.

(** [%R] when no global variable is named REQUEST_URI. *)
Lemma request_uri_directive_without_global b :
  exists_ (globals env) s_REQUEST_URI = false →
  format_directive env "R" b = b.
Proof. intros H. simpl. by rewrite H. Qed.

(** The trigger test and [%S] do not depend on [$_COOKIE]. *)
Lemma globals_get_set_COOKIE cookies name :
  name ≠ "_COOKIE" →
  globals_get (set_globals (<["_COOKIE" := cookies]> (globals env)) env) name
  = globals_get env name.
Proof.
  intros Hne. unfold globals_get, rvalAt. simpl. by rewrite lookup_insert_ne.
Qed.

Lemma isTriggerSet_ignores_COOKIE cookies trigger :
  isTriggerSet (set_globals (<["_COOKIE" := cookies]> (globals env)) env) trigger
  = isTriggerSet env trigger.
Proof. unfold isTriggerSet. by rewrite !globals_get_set_COOKIE. Qed.

Lemma session_directive_ignores_COOKIE cookies b :
  format_directive (set_globals (<["_COOKIE" := cookies]> (globals env)) env) "S" b
  = format_directive env "S" b.
Proof.
  change (format_directive ?e "S" b) with
    (match IniSetting_Get e s_SESSION_NAME with
     | Some session_name =>
         let cookies := toArray (globals_get e s_COOKIE) in
         if exists_ cookies session_name && isString (rvalAt cookies session_name)
         then buf_append b (replace_special_chars (toString (rvalAt cookies session_name)))
         else b
     | None => buf_char b "%"
     end).
  by rewrite globals_get_set_COOKIE.
Qed.

End Superglobals.

(** C3: the template [sess_%S] resolves to [sess_%] when no session name is
    configured, and to [sess_] when the session name is configured and
    [$_COOKIE] binds it to a string; the session id appears only when the
    cookies are stored in a global named [_COOOKIE]. *)
Theorem session_directive_resolution :
  format_filename sample_env 0 None "sess_%S" false = ("sess_%", 0%nat) ∧
  format_filename cookie_env 0 None "sess_%S" false = ("sess_", 0%nat) ∧
  format_filename misnamed_cookie_env 0 None "sess_%S" false = ("sess_a_b_c", 0%nat).
Proof. split_and!; vm_compute; reflexivity. Qed.

(** C4: with the extension enabled, the profiling trigger enabled and the
    trigger key present in [$_COOKIE] alone, the trigger test answers no
    and the policy check at request start leaves the thread detached; the
    same key as a GET parameter attaches the profiler. *)
Theorem cookie_trigger_not_seen :
  exists_ (toArray (globals_get cookie_env "_COOKIE")) "XDEBUG_PROFILE" = true ∧
  isTriggerSet cookie_env (ProfilerTrigger sample_cfg) = false ∧
  XDebugExtension_requestInit sample_cfg cookie_env sample_thread
  = Ok tt sample_thread ∧
  ∃ t, XDebugExtension_requestInit sample_cfg get_trigger_env sample_thread = Ok tt t ∧
       attached t = true.
Proof.
  split_and!; [vm_compute; reflexivity..|].
  eexists. split; vm_compute; reflexivity.
Qed.

(** C5: with REQUEST_URI present in [$_SERVER] but no global variable of
    that name, [%R] resolves to nothing, where [%s] on the same request
    resolves to the sanitized script name; once a global variable named
    REQUEST_URI exists, whatever it holds, [%R] resolves to the sanitized
    [$_SERVER] entry. *)
Theorem request_uri_presence_test :
  exists_ (toArray (globals_get sample_env s_SERVER)) s_REQUEST_URI = true ∧
  format_filename sample_env 0 None "%R" false = ("", 0%nat) ∧
  format_filename sample_env 0 None "%s" false = ("_index_php", 0%nat) ∧
  format_filename uri_global_env 0 None "%R" false = ("_index_php_x=1", 0%nat).
Proof. split_and!; vm_compute; reflexivity. Qed.

(** ** The statements at the sample requests *)

Lemma attachment_flag_accurate_witness :
  let ops := [OpStartTrace (VStr "foo") 0; OpStopTrace] in
  fresh sample_thread ∧
  run sample_cfg sample_env ops sample_thread = Some stopped_thread ∧
  (attached stopped_thread = true ↔ head (lifecycle stopped_thread) = Some Attached) ∧
  (attached stopped_thread = true ↔
   ∃ p, s_profiler_factory stopped_thread = Some (XDebug p)) ∧
  alternating (lifecycle stopped_thread) ∧
  ∃ t'', XDebugExtension_requestShutdown sample_cfg stopped_thread = Ok tt t'' ∧
         attached t'' = false ∧ bound t'' = None.
Proof.
  intros ops.
  assert (fresh sample_thread) as Hf by (vm_compute; auto).
  assert (run sample_cfg sample_env ops sample_thread = Some stopped_thread) as Hr
    by (vm_compute; reflexivity).
  split; [exact Hf|]. split; [exact Hr|].
  destruct (attachment_flag_accurate sample_cfg sample_env ops sample_thread
              stopped_thread Hf Hr) as (H1 & H2 & H3 & H4).
  split; [exact H1|]. split; [exact H2|]. split; [exact H3|].
  apply H4. reflexivity.
Defined.

(** With [auto_trace] on, the request start attaches and traces; once that
    trace is stopped the thread is detached, and a start-trace for [foo]
    attaches again, which starts the automatic trace, and answers false.
    With another profiler bound, start-trace throws. *)
Lemma start_trace_after_auto_trace :
  (do _ <- XDebugExtension_requestInit auto_trace_cfg sample_env; xdebug_stop_trace)
    sample_thread
  = Ok (VStr "/tmp/trace.1234.xt") stopped_thread ∧
  attached stopped_thread = false ∧
  (¬ ∃ path t1,
       xdebug_start_trace auto_trace_cfg sample_env (VStr "foo") 0 stopped_thread
       = Ok (VStr path) t1) ∧
  (∃ t1,
     xdebug_start_trace auto_trace_cfg sample_env (VStr "foo") 0 stopped_thread
     = Ok (VBool false) t1 ∧
     tracing t1 = true) ∧
  xdebug_start_trace sample_cfg sample_env (VStr "foo") 0 busy_thread
  = Throw (FatalError attach_failed) busy_thread.
Proof.
  split_and!.
  - vm_compute. reflexivity.
  - reflexivity.
  - intros (path & t1 & H). vm_compute in H. discriminate H.
  - eexists. split; vm_compute; reflexivity.
  - vm_compute. reflexivity.
Qed.

Lemma trace_round_trip_witness :
  (∃ t1 t2,
     xdebug_start_trace sample_cfg sample_env (VStr "foo") 0 sample_thread
     = Ok (VStr "foo.xt") t1 ∧
     xdebug_stop_trace t1 = Ok (VStr "foo.xt") t2 ∧
     tracing t2 = false ∧
     xdebug_get_tracefile_name t2 = Ok (VBool false) t2) ∧
  xdebug_stop_trace profiling_thread = Ok (VBool false) profiling_thread.
Proof.
  split.
  - apply (proj1 (trace_round_trip sample_cfg sample_env "foo" sample_thread)).
    right. vm_compute. auto.
  - apply (proj2 (trace_round_trip sample_cfg sample_env "foo" profiling_thread)).
    right. split; [reflexivity|]. eexists. split; reflexivity.
Defined.

Lemma start_trace_already_tracing_witness :
  xdebug_start_trace sample_cfg sample_env (VStr "foo") 0 tracing_thread
  = Ok (VBool false) tracing_thread ∧
  xdebug_start_trace sample_cfg sample_env (VStr "foo") 0 busy_thread
  = Throw (FatalError attach_failed) busy_thread ∧
  attached busy_thread = false ∧ is_Some (s_profiler_factory busy_thread).
Proof.
  split.
  - apply (proj1 (start_trace_already_tracing sample_cfg sample_env (VStr "foo") 0
                    tracing_thread)
             (enableTracing "/tmp/trace.1234.xt" 0 new_XDebugProfiler));
      reflexivity.
  - assert (xdebug_start_trace sample_cfg sample_env (VStr "foo") 0 busy_thread
            = Throw (FatalError attach_failed) busy_thread) as Hthrow
      by (vm_compute; reflexivity).
    split; [exact Hthrow|].
    apply (proj2 (start_trace_already_tracing sample_cfg sample_env (VStr "foo") 0
                    busy_thread) _ _ Hthrow).
Defined.

Lemma start_trace_non_string_witness :
  isString (VInt 7) = false ∧
  attachable sample_cfg sample_env sample_thread ∧
  xdebug_start_trace sample_cfg sample_env (VInt 7) 0 sample_thread
  = xdebug_start_trace sample_cfg sample_env VNull 0 sample_thread ∧
  ∃ t1 p,
    xdebug_start_trace sample_cfg sample_env (VInt 7) 0 sample_thread
    = Ok (VStr "/tmp/trace.1234.xt") t1 ∧
    bound t1 = Some p ∧ isTracing p = true ∧
    getTracingFilename p = "/tmp/trace.1234.xt".
Proof.
  assert (attachable sample_cfg sample_env sample_thread) as Ha
    by (vm_compute; auto).
  split; [reflexivity|]. split; [exact Ha|].
  destruct (start_trace_non_string sample_cfg sample_env (VInt 7) 0 sample_thread
              eq_refl) as [Hnull Hpath].
  split; [exact Hnull|]. apply Hpath. right. exact Ha.
Defined.

Lemma start_code_coverage_guard_witness :
  xdebug_start_code_coverage sample_env 2 sample_thread
  = Throw (FatalError coverage_unsupported) sample_thread ∧
  ∃ t', xdebug_start_code_coverage sample_env 0 sample_thread
        = Throw VMSwitchModeBuiltin t' ∧
        m_coverage_flag t' = true ∧ m_coverage t' = m_coverage sample_thread.
Proof.
  split.
  - apply (proj1 (start_code_coverage_guard sample_env 2 sample_thread)). lia.
  - apply (proj2 (start_code_coverage_guard sample_env 0 sample_thread)). reflexivity.
Defined.

Lemma memory_usage_not_negative_witness :
  (xdebug_memory_usage true (-4096) sample_thread = Ok 0 sample_thread ∧ 0 ≤ 0) ∧
  (xdebug_memory_usage false 4096 sample_thread = Ok 4096 sample_thread ∧ 0 ≤ 4096).
Proof.
  split.
  - apply (memory_usage_not_negative true (-4096) sample_thread). left. reflexivity.
  - apply (memory_usage_not_negative false 4096 sample_thread). right. lia.
Defined.

Lemma unrecognized_directive_literal_witness :
  format_loop sample_env "%q_%p" ("/tmp/", 0%nat)
  = format_loop sample_env "_%p" ("/tmp/%q", 0%nat).
Proof.
  apply (proj1 (unrecognized_directive_literal sample_env "q" "_%p" ("/tmp/", 0%nat) 0)).
  reflexivity.
Defined.

(** * Further properties *)

(** ** The sanitizer and the scan *)

Section Scan.

Variable env : Ambient.

(** X1: the sanitizer keeps the length, leaves no special character, and
    changes a character only by putting [_] for a special one. *)
Theorem replace_special_chars_sanitizes str :
  String.length (replace_special_chars str) = String.length str ∧
  Forall (λ c, special_char c = false)
    (list_ascii_of_string (replace_special_chars str)) ∧
  ∀ i, String.get i (replace_special_chars str)
       = (λ c, if special_char c then "_"%char else c) <$> String.get i str.
Proof.
  split; [apply replace_special_chars_length|].
  split; [apply replace_special_chars_clean|].
  induction str as [|c str IH]; intros [|i]; simpl; auto.
Qed.

Lemma replace_special_chars_fixed str :
  Forall (λ c, special_char c = false) (list_ascii_of_string str) →
  replace_special_chars str = str.
Proof.
  induction str as [|c str IH]; simpl; [done|].
  intros H. inversion H as [|? ? Hc Hstr]; subst. by rewrite Hc, IH.
Qed.

(** X2: sanitizing twice is sanitizing once, and the strings the sanitizer
    leaves alone are those without a special character. *)
Theorem replace_special_chars_idempotent str :
  replace_special_chars (replace_special_chars str) = replace_special_chars str ∧
  (replace_special_chars str = str ↔
   Forall (λ c, special_char c = false) (list_ascii_of_string str)).
Proof.
  split; [apply replace_special_chars_fixed, replace_special_chars_clean|].
  split; [|apply replace_special_chars_fixed].
  intros <-. apply replace_special_chars_clean.
Qed.

Lemma buf_append_empty b : buf_append b "" = b.
Proof. destruct b as [s n]. unfold buf_append. simpl. by rewrite append_empty_r. Qed.

Lemma append_assoc (s1 s2 s3 : string) : (s1 +:+ s2) +:+ s3 = s1 +:+ (s2 +:+ s3).
Proof. induction s1 as [|a s1 IH]; [done|]. by rewrite !append_String, IH. Qed.

(** What a directive puts into the buffer does not depend on what the
    buffer holds. *)
Lemma format_directive_prefix c s n :
  format_directive env c (s, n)
  = (s +:+ (format_directive env c ("", n)).1, (format_directive env c ("", n)).2).
Proof.
  destruct c as [[] [] [] [] [] [] [] []];
    cbn [format_directive];
    unfold append_server_string, buf_tick, buf_append, buf_char; cbn [fst snd];
    repeat case_match; cbn [fst snd];
    rewrite ?append_empty_r, ?append_assoc; reflexivity.
Qed.

Lemma format_loop_step c c' rest b :
  format_loop env (String c (String c' rest)) b
  = if decide (c ≠ "%"%char)
    then format_loop env (String c' rest) (buf_char b c)
    else format_loop env rest (format_directive env c' b).
Proof. reflexivity. Qed.

Lemma format_loop_prefix fmt :
  (∀ s n, format_loop env fmt (s, n)
          = (s +:+ (format_loop env fmt ("", n)).1, (format_loop env fmt ("", n)).2)) ∧
  (∀ c s n, format_loop env (String c fmt) (s, n)
            = (s +:+ (format_loop env (String c fmt) ("", n)).1,
               (format_loop env (String c fmt) ("", n)).2)).
Proof.
  induction fmt as [|a fmt [IH1 IH2]].
  - split; intros; simpl; [by rewrite append_empty_r|done].
  - split; [apply IH2|]. intros c s n.
    rewrite !format_loop_step. destruct (decide (c ≠ "%"%char)).
    + unfold buf_char. cbn [fst snd].
      rewrite (IH2 a (s +:+ String c "")), (IH2 a ("" +:+ String c "")).
      cbn [fst snd]. by rewrite append_assoc.
    + rewrite format_directive_prefix.
      destruct (format_directive env a ("", n)) as [piece n'] eqn:E. cbn [fst snd].
      rewrite (IH1 (s +:+ piece)), (IH1 piece). cbn [fst snd].
      by rewrite append_assoc.
Qed.

(** X3: the directory and the suffix are put around the resolved template
    and have no influence on it, nor on the clock and random calls made. *)
Theorem format_filename_decomposes n dir formatFile addSuffix :
  let body := format_filename env n None formatFile false in
  format_filename env n dir formatFile addSuffix
  = ((match dir with Some d => d +:+ "/" | None => "" end)
       +:+ body.1 +:+ (if addSuffix then ".xt" else ""),
     body.2).
Proof.
  unfold format_filename, buf_append, buf_char. cbn [fst snd].
  destruct dir as [d|]; cbn [fst snd].
  - rewrite (proj1 (format_loop_prefix formatFile) ("" +:+ d +:+ "/")).
    destruct (format_loop env formatFile ("", n)) as [body n'].
    destruct addSuffix; cbn [fst snd]; by rewrite ?append_assoc, ?append_empty_r.
  - destruct (format_loop env formatFile ("", n)) as [body n'].
    destruct addSuffix; cbn [fst snd]; by rewrite ?append_empty_r.
Qed.

(** X4: a template without [%] is copied as it is, between the directory
    and the suffix, and no clock or random call is made. *)
Theorem format_filename_plain n dir formatFile addSuffix :
  Forall (λ c, c ≠ "%"%char) (list_ascii_of_string formatFile) →
  format_filename env n dir formatFile addSuffix
  = ((match dir with Some d => d +:+ "/" | None => "" end)
       +:+ formatFile +:+ (if addSuffix then ".xt" else ""),
     n).
Proof.
  intros Hplain. rewrite format_filename_decomposes. cbn zeta.
  pose proof (format_loop_plain env formatFile Hplain "" ("", n)) as Hloop.
  rewrite append_empty_r in Hloop.
  unfold format_filename. by rewrite Hloop.
Qed.

(** X5: what [%s], [%H], [%R], [%U] and [%S] put into the buffer never
    holds a special character, whatever the request carries. *)
Theorem ambient_directives_sanitized b :
  Forall (λ c, ∃ piece, format_directive env c b = buf_append b piece ∧
                        Forall (λ c', special_char c' = false)
                          (list_ascii_of_string piece))
    ["s"; "H"; "R"; "U"; "S"]%char.
Proof.
  assert (∃ piece, b = buf_append b piece ∧
                   Forall (λ c', special_char c' = false) (list_ascii_of_string piece))
    as Hnone by (exists ""; by rewrite buf_append_empty).
  repeat constructor; cbn [format_directive]; unfold append_server_string;
    repeat case_match; try exact Hnone;
    try (eexists; split; [reflexivity|apply replace_special_chars_clean]).
  exists "%". split; [done|]. by repeat constructor.
Qed.


End Scan.

Lemma format_filename_plain_witness :
  format_filename sample_env 0 (Some "/tmp") "trace_out" true
  = ("/tmp/trace_out.xt", 0%nat).
Proof.
  apply (format_filename_plain sample_env 0 (Some "/tmp") "trace_out" true).
  repeat constructor; discriminate.
Defined.


(** ** Trace options *)

Section Options.

Context {K : XDebugConstants}.
Variable cfg : XDebugExtension.
Variable env : Ambient.

Ltac lor_bits :=
  apply Z.bits_inj'; intros; rewrite !Z.lor_spec;
  repeat match goal with
         | |- context [Z.testbit ?a ?b] => destruct (Z.testbit a b)
         end;
  reflexivity.

Lemma trace_options_keeps options :
  Z.lor (trace_options cfg options) options = trace_options cfg options.
Proof.
  unfold trace_options.
  repeat case_decide; lor_bits.
Qed.

(** X7: the options a trace is started with hold every bit the caller
    passed, and merging the configuration in a second time adds nothing. *)
Theorem trace_options_additive options :
  Z.lor (trace_options cfg options) options = trace_options cfg options ∧
  (∀ i, Z.testbit options i = true →
        Z.testbit (trace_options cfg options) i = true) ∧
  trace_options cfg (trace_options cfg options) = trace_options cfg options.
Proof.
  split; [apply trace_options_keeps|]. split.
  - intros i Hi. rewrite <- trace_options_keeps, Z.lor_spec, Hi. apply orb_true_r.
  - unfold trace_options.
    repeat case_decide; first [reflexivity | lor_bits].
Qed.

Lemma naked_bit_survives options :
  Z.land options k_XDEBUG_TRACE_NAKED_FILENAME ≠ 0 →
  Z.land (trace_options cfg options) k_XDEBUG_TRACE_NAKED_FILENAME ≠ 0.
Proof.
  intros Hbit Hzero. apply Hbit. apply Z.bits_inj'. intros i Hi.
  rewrite Z.bits_0, Z.land_spec.
  assert (Z.testbit (Z.land (trace_options cfg options) k_XDEBUG_TRACE_NAKED_FILENAME) i
          = false) as Hi0 by (by rewrite Hzero, Z.bits_0).
  rewrite Z.land_spec in Hi0.
  destruct (Z.testbit options i) eqn:Ho; [|done].
  by rewrite (proj1 (proj2 (trace_options_additive options)) i Ho) in Hi0.
Qed.

(** X8: when the caller passes the naked-filename bit, an explicit trace
    start on an attached profiler without a trace resolves the caller's
    template without the [.xt] suffix, whatever the configuration adds. *)
Theorem naked_filename_suppresses_suffix f options t :
  Z.land options k_XDEBUG_TRACE_NAKED_FILENAME ≠ 0 → idle t →
  trace_suffix cfg options = false ∧
  ∃ t1, xdebug_start_trace cfg env (VStr f) options t
        = Ok (VStr (format_filename env (calls t) None f false).1) t1.
Proof.
  intros Hbit Hidle.
  assert (trace_suffix cfg options = false) as Hs.
  { unfold trace_suffix. apply bool_decide_eq_false. by apply naked_bit_survives. }
  split; [exact Hs|].
  destruct (start_trace_begins cfg env (VStr f) options t (or_introl Hidle))
    as (t1 & p & Hstart & _).
  simpl in Hstart. rewrite Hs in Hstart.
  unfold calls_before_trace in Hstart. destruct Hidle as [Ha _]. rewrite Ha in Hstart.
  by exists t1.
Qed.

End Options.

Lemma trace_options_additive_witness :
  Z.testbit (trace_options profiler_cfg 8) 3 = true.
Proof.
  apply (proj1 (proj2 (trace_options_additive profiler_cfg 8)) 3). reflexivity.
Defined.

Lemma naked_filename_suppresses_suffix_witness :
  trace_suffix profiler_cfg 8 = false ∧
  ∃ t1, xdebug_start_trace profiler_cfg sample_env (VStr "foo") 8 idle_thread
        = Ok (VStr "foo") t1.
Proof.
  apply (naked_filename_suppresses_suffix profiler_cfg sample_env "foo" 8 idle_thread).
  - vm_compute. discriminate.
  - split; [reflexivity|]. eexists. split; reflexivity.
Defined.

(** ** Attaching *)

Section Attaching.

Context {K : XDebugConstants}.
Variable cfg : XDebugExtension.
Variable env : Ambient.

(** X9: an attach on a detached thread with a free factory slot succeeds
    and leaves a profiler that profiles and traces exactly as the policy
    asks and collects memory and time as configured; the profile file name
    query then answers the path resolved from the profiler output directory
    and name, without suffix, or false when no profile was asked for. *)
Theorem attach_configures t :
  attached t = false → s_profiler_factory t = None →
  ∃ t1 p,
    attach_xdebug_profiler cfg env t = Ok tt t1 ∧
    attached t1 = true ∧ bound t1 = Some p ∧
    lifecycle t1 = Attached :: lifecycle t ∧
    isProfiling p = isProfilingNeeded cfg env ∧
    isTracing p = isTracingNeeded cfg env ∧
    m_collectMemory p = CollectMemory cfg ∧
    m_collectTime p = CollectTime cfg ∧
    xdebug_get_profiler_filename t1
    = Ok (if isProfilingNeeded cfg env
          then VStr (format_filename env (calls t) (Some (ProfilerOutputDir cfg))
                       (ProfilerOutputName cfg) false).1
          else VBool false) t1.
Proof.
  unfold attached, bound. destruct t as [[att tm] fac cf cd n nt lg]. simpl.
  intros -> ->. unfold_ops. simpl.
  destruct (isProfilingNeeded cfg env), (isTracingNeeded cfg env); simpl;
    do 2 eexists; (split; [reflexivity|]); simpl; split_and!; reflexivity.
Qed.

(** X10: with a profiler bound already, the attach, the explicit trace
    start and the policy check at request start, when it has to attach,
    all raise the same error and leave the thread as it was. *)
Theorem attach_unavailable v options t :
  attached t = false → is_Some (s_profiler_factory t) →
  attach_xdebug_profiler cfg env t = Throw (FatalError attach_failed) t ∧
  xdebug_start_trace cfg env v options t = Throw (FatalError attach_failed) t ∧
  (Enable cfg && isProfilerNeeded cfg env = true →
   XDebugExtension_requestInit cfg env t = Throw (FatalError attach_failed) t).
Proof.
  unfold attached. destruct t as [[att tm] fac cf cd n nt lg]. simpl.
  intros -> [q ->]. unfold_ops. simpl. split_and!; [done..|].
  by intros ->.
Qed.

(** X11: the policy check does not look at the flag.  From a detached
    thread with a free slot, when the extension is enabled and a profiler is
    needed, the check at request start attaches and a second check stops on
    the assertion of the attach; otherwise both checks do nothing. *)
Theorem policy_check_twice t :
  attached t = false → s_profiler_factory t = None →
  if Enable cfg && isProfilerNeeded cfg env
  then ∃ t1, XDebugExtension_requestInit cfg env t = Ok tt t1 ∧
             attached t1 = true ∧
             _xdebug_check_trigger_vars cfg env t1 = Abort
  else XDebugExtension_requestInit cfg env t = Ok tt t ∧
       _xdebug_check_trigger_vars cfg env t = Ok tt t.
Proof.
  intros Ha Hf.
  unfold XDebugExtension_requestInit, _xdebug_check_trigger_vars.
  destruct (Enable cfg && isProfilerNeeded cfg env); simpl; [|done].
  destruct (attach_configures t Ha Hf) as (t1 & p & -> & Ha1 & _).
  exists t1. split; [done|]. split; [done|].
  unfold attach_xdebug_profiler, bind, get, assert. by rewrite Ha1.
Qed.

End Attaching.

(** ** Stopping and querying *)

Section Stopping.

Context {K : XDebugConstants}.
Variable cfg : XDebugExtension.
Variable env : Ambient.

(** X12: stopping the trace releases the profiler exactly when no profile
    is being collected; a profiler that goes on profiling stays attached,
    and the profile file name query answers as before. *)
Theorem stop_trace_detaches_when_idle t p :
  attached t = true → bound t = Some p → isTracing p = true →
  ∃ t2,
    xdebug_stop_trace t = Ok (VStr (getTracingFilename p)) t2 ∧
    attached t2 = isProfiling p ∧
    if isProfiling p
    then bound t2 = Some (disableTracing p) ∧ lifecycle t2 = lifecycle t ∧
         xdebug_get_profiler_filename t2 = Ok (VStr (getProfilingFilename p)) t2
    else s_profiler_factory t2 = None ∧ lifecycle t2 = Detached :: lifecycle t.
Proof.
  unfold bound, attached.
  destruct t as [[att tm] fac cf cd n nt lg]. simpl. intros -> Hp Htr.
  destruct fac as [[q|]|]; simplify_eq.
  destruct p as [tr tf to pr pf po cm ct fr]. simpl in Htr. subst tr.
  unfold_ops. simpl. destruct pr; simpl; eexists; (split; [reflexivity|]); done.
Qed.

(** X13: once an explicit trace start has answered with a path, a second
    start, whatever its arguments, answers false and changes nothing, and
    the trace file name query answers the first path. *)
Theorem start_trace_twice v options v' options' t :
  idle t ∨ attachable cfg env t →
  ∃ path t1,
    xdebug_start_trace cfg env v options t = Ok (VStr path) t1 ∧
    xdebug_start_trace cfg env v' options' t1 = Ok (VBool false) t1 ∧
    xdebug_get_tracefile_name t1 = Ok (VStr path) t1.
Proof.
  intros Ht.
  destruct (start_trace_begins cfg env v options t Ht)
    as (t1 & p & Hstart & Hatt & Hp & Htr & Hname & _).
  eexists _, t1. split; [exact Hstart|]. clear Hstart. rewrite <- Hname. clear Hname.
  unfold bound, attached in *. destruct t1 as [[att tm] fac cf cd n nt lg].
  simpl in *. subst att. destruct fac as [[q|]|]; simplify_eq.
  unfold_ops. simpl. unfold isTracing in *. by rewrite Htr.
Qed.

(** X14: after a trace was stopped, a second stop answers false and
    changes nothing. *)
Theorem stop_trace_twice t p :
  attached t = true → bound t = Some p → isTracing p = true →
  ∃ t2, xdebug_stop_trace t = Ok (VStr (getTracingFilename p)) t2 ∧
        xdebug_stop_trace t2 = Ok (VBool false) t2.
Proof.
  unfold bound, attached.
  destruct t as [[att tm] fac cf cd n nt lg]. simpl. intros -> Hp Htr.
  destruct fac as [[q|]|]; simplify_eq.
  destruct p as [tr tf to pr pf po cm ct fr]. simpl in Htr. subst tr.
  unfold_ops. simpl. destruct pr; simpl; eexists; (split; [reflexivity|]); done.
Qed.

(** X15: the trace file name query changes nothing, and what it answers
    is what a stop at that moment returns: the trace's file, or false. *)
Theorem tracefile_name_is_what_stop_returns t v t' :
  xdebug_get_tracefile_name t = Ok v t' →
  t' = t ∧ ∃ t2, xdebug_stop_trace t = Ok v t2.
Proof.
  destruct t as [[att tm] fac cf cd n nt lg]. destruct att.
  - destruct fac as [[[tr tf to pr pf po cm ct fr]|]|]; unfold_ops; simpl;
      [|done..].
    destruct tr; simpl; intros [= <- <-]; (split; [done|]);
      [destruct pr; simpl|]; by eexists.
  - unfold_ops. simpl. intros [= <- <-]. split; [done|]. by eexists.
Qed.

(** X16: a run-time change of a profiler setting that does not touch what
    is collected always answers true; it does nothing on a detached thread,
    updates the attached profiler when that is collecting, and releases it
    when it is not. *)
Theorem profiler_setting_change {T : Type}
    (set : T → XDebugProfiler → XDebugProfiler) (val : T) t :
  (∀ p, isCollecting (set val p) = isCollecting p) →
  (attached t = false → profiler_setting_changed set val t = Ok true t) ∧
  (∀ p, attached t = true → bound t = Some p →
        ∃ t1, profiler_setting_changed set val t = Ok true t1 ∧
              attached t1 = isCollecting p ∧
              if isCollecting p
              then bound t1 = Some (set val p) ∧ lifecycle t1 = lifecycle t
              else s_profiler_factory t1 = None ∧
                   lifecycle t1 = Detached :: lifecycle t).
Proof.
  intros Hset. unfold bound, attached.
  destruct t as [[att tm] fac cf cd n nt lg]. simpl. split.
  - by intros ->.
  - intros p -> Hp. destruct fac as [[q|]|]; simplify_eq.
    unfold profiler_setting_changed. unfold_ops. simpl. rewrite Hset.
    destruct (isCollecting p); simpl; eexists; (split; [reflexivity|]); done.
Qed.

(** X17: at the end of a request, the extension's shutdown followed by the
    request data's leaves the flag false, no xdebug profiler bound and the
    start time cleared; run the other way round on an attached thread, the
    flag is false and the profiler is still bound. *)
Theorem teardown_order t :
  accurate t → Enable cfg = true →
  (∃ t2, (do _ <- XDebugExtension_requestShutdown cfg;
          XDebugRequestData_requestShutdown) t = Ok tt t2 ∧
         attached t2 = false ∧ bound t2 = None ∧
         m_init_time (s_request t2) = 0) ∧
  (attached t = true →
   ∃ t2, (do _ <- XDebugRequestData_requestShutdown;
          XDebugExtension_requestShutdown cfg) t = Ok tt t2 ∧
         attached t2 = false ∧ is_Some (bound t2) ∧ bound t2 = bound t).
Proof.
  intros Ht He. split.
  - destruct (requestShutdown_detaches cfg t Ht He) as (t1 & Hs & Ha & Hb).
    unfold bind at 1. rewrite Hs. eexists. split; [reflexivity|].
    by destruct t1.
  - intros Ha. destruct Ht as (_ & H2 & _). destruct (proj1 H2 Ha) as [p Hp].
    unfold XDebugRequestData_requestShutdown, XDebugExtension_requestShutdown.
    unfold_ops. unfold attached, bound in *.
    destruct t as [[att tm] fac cf cd n nt lg]. simpl in *. subst.
    rewrite andb_false_r. simpl. eexists. split; [reflexivity|]. by eauto.
Qed.

End Stopping.

Lemma attach_configures_witness :
  ∃ t1 p,
    attach_xdebug_profiler profiler_cfg sample_env sample_thread = Ok tt t1 ∧
    attached t1 = true ∧ bound t1 = Some p ∧
    lifecycle t1 = [Attached] ∧
    isProfiling p = true ∧ isTracing p = false ∧
    m_collectMemory p = true ∧ m_collectTime p = false ∧
    xdebug_get_profiler_filename t1 = Ok (VStr "/tmp/cachegrind.out.1234") t1.
Proof.
  apply (attach_configures profiler_cfg sample_env sample_thread); reflexivity.
Defined.

Lemma attach_unavailable_witness :
  attach_xdebug_profiler profiler_cfg sample_env busy_thread
  = Throw (FatalError attach_failed) busy_thread ∧
  xdebug_start_trace profiler_cfg sample_env VNull 0 busy_thread
  = Throw (FatalError attach_failed) busy_thread ∧
  XDebugExtension_requestInit profiler_cfg sample_env busy_thread
  = Throw (FatalError attach_failed) busy_thread.
Proof.
  destruct (attach_unavailable profiler_cfg sample_env VNull 0 busy_thread)
    as (H1 & H2 & H3); [reflexivity|by eexists|].
  split; [exact H1|]. split; [exact H2|]. apply H3. reflexivity.
Defined.

Lemma policy_check_twice_witness :
  ∃ t1, XDebugExtension_requestInit profiler_cfg sample_env sample_thread = Ok tt t1 ∧
        attached t1 = true ∧
        _xdebug_check_trigger_vars profiler_cfg sample_env t1 = Abort.
Proof.
  apply (policy_check_twice profiler_cfg sample_env sample_thread); reflexivity.
Defined.

Lemma stop_trace_detaches_when_idle_witness :
  ∃ t2,
    xdebug_stop_trace busy_profiler_thread = Ok (VStr "/tmp/trace.1234.xt") t2 ∧
    attached t2 = true ∧
    bound t2
    = Some (disableTracing
              (enableTracing "/tmp/trace.1234.xt" 0
                 (enableProfiling "/tmp/cachegrind.out.1234" 0 new_XDebugProfiler))) ∧
    lifecycle t2 = [Attached] ∧
    xdebug_get_profiler_filename t2 = Ok (VStr "/tmp/cachegrind.out.1234") t2.
Proof.
  apply (stop_trace_detaches_when_idle busy_profiler_thread
           (enableTracing "/tmp/trace.1234.xt" 0
              (enableProfiling "/tmp/cachegrind.out.1234" 0 new_XDebugProfiler)));
    reflexivity.
Defined.

Lemma start_trace_twice_witness :
  ∃ path t1,
    xdebug_start_trace sample_cfg sample_env (VStr "foo") 0 idle_thread
    = Ok (VStr path) t1 ∧
    xdebug_start_trace sample_cfg sample_env (VStr "bar") 8 t1 = Ok (VBool false) t1 ∧
    xdebug_get_tracefile_name t1 = Ok (VStr path) t1.
Proof.
  apply (start_trace_twice sample_cfg sample_env (VStr "foo") 0 (VStr "bar") 8
           idle_thread).
  left. split; [reflexivity|]. eexists. split; reflexivity.
Defined.

Lemma stop_trace_twice_witness :
  ∃ t2, xdebug_stop_trace tracing_thread = Ok (VStr "/tmp/trace.1234.xt") t2 ∧
        xdebug_stop_trace t2 = Ok (VBool false) t2.
Proof.
  apply (stop_trace_twice tracing_thread
           (enableTracing "/tmp/trace.1234.xt" 0 new_XDebugProfiler));
    reflexivity.
Defined.

Lemma tracefile_name_is_what_stop_returns_witness :
  xdebug_get_tracefile_name tracing_thread
  = Ok (VStr "/tmp/trace.1234.xt") tracing_thread ∧
  ∃ t2, xdebug_stop_trace tracing_thread = Ok (VStr "/tmp/trace.1234.xt") t2.
Proof.
  assert (xdebug_get_tracefile_name tracing_thread
          = Ok (VStr "/tmp/trace.1234.xt") tracing_thread) as Hq by reflexivity.
  split; [exact Hq|].
  exact (proj2 (tracefile_name_is_what_stop_returns tracing_thread _ _ Hq)).
Defined.

Lemma profiler_setting_change_witness :
  ∃ t1, profiler_setting_changed setCollectMemory true idle_thread = Ok true t1 ∧
        attached t1 = false ∧
        s_profiler_factory t1 = None ∧ lifecycle t1 = [Detached; Attached].
Proof.
  apply (proj2 (profiler_setting_change setCollectMemory true idle_thread
                  (λ p, eq_refl)) new_XDebugProfiler);
    reflexivity.
Defined.

Lemma teardown_order_witness :
  (∃ t2, (do _ <- XDebugExtension_requestShutdown sample_cfg;
          XDebugRequestData_requestShutdown) tracing_thread = Ok tt t2 ∧
         attached t2 = false ∧ bound t2 = None ∧
         m_init_time (s_request t2) = 0) ∧
  ∃ t2, (do _ <- XDebugRequestData_requestShutdown;
         XDebugExtension_requestShutdown sample_cfg) tracing_thread = Ok tt t2 ∧
        attached t2 = false ∧ is_Some (bound t2) ∧ bound t2 = bound tracing_thread.
Proof.
  assert (accurate tracing_thread) as Ht.
  { split_and!; [done| |done]. split; [by eexists|done]. }
  destruct (teardown_order sample_cfg tracing_thread Ht eq_refl) as [H1 H2].
  split; [exact H1|]. apply H2. reflexivity.
Defined.

(** ** The calls of a script *)

Section Calls.

Context {K : XDebugConstants}.
Variable cfg : XDebugExtension.
Variable env : Ambient.

Lemma preserves_modify P (f : Thread → Thread) :
  (∀ t, P t → P (f t)) → preserves (modify f) P.
Proof. intros Hf t Ht. by apply Hf. Qed.

Lemma preserves_throw {A} P e : preserves (throw (A:=A) e) P.
Proof. intros t Ht. exact Ht. Qed.

Lemma preserves_abort {A} P : preserves (λ _, Abort (A:=A)) P.
Proof. by intros t Ht. Qed.

Ltac head_of m :=
  lazymatch m with
  | ?f _ => head_of f
  | _ => m
  end.

(** Splits a computation into its primitive steps, by its syntax; [tac] has
    to show that a state update keeps the property. *)
Ltac preserve_by tac :=
  repeat lazymatch goal with
    | |- preserves (ret _) _ => apply preserves_ret
    | |- preserves get _ => apply preserves_get
    | |- preserves (assert _) _ => apply preserves_assert
    | |- preserves (throw _) _ => apply preserves_throw
    | |- preserves (fun _ => Abort) _ => apply preserves_abort
    | |- preserves (modify _) _ => apply preserves_modify; tac
    | |- preserves (when _ _) _ => apply preserves_when
    | |- preserves (bind _ _) _ => apply preserves_bind; [|intros ?]
    | |- preserves (match ?x with _ => _ end) _ => destruct x
    | |- preserves (let _ := _ in _) _ => cbv zeta
    | |- preserves ?m _ => let h := head_of m in unfold h
    end.

Lemma get_profiler_filename_accurate :
  preserves xdebug_get_profiler_filename accurate.
Proof.
  unfold xdebug_get_profiler_filename.
  apply preserves_bind; [apply preserves_get|intros t0].
  destruct (negb (attached t0)); [apply preserves_ret|].
  apply preserves_bind; [apply xdebug_profiler_accurate|intros p].
  destruct (isProfiling p); apply preserves_ret.
Qed.

Lemma get_tracefile_name_accurate :
  preserves xdebug_get_tracefile_name accurate.
Proof.
  unfold xdebug_get_tracefile_name.
  apply preserves_bind; [apply preserves_get|intros t0].
  destruct (attached t0); [|apply preserves_ret].
  apply preserves_bind; [apply xdebug_profiler_accurate|intros p].
  destruct (isTracing p); apply preserves_ret.
Qed.

Lemma setting_changed_accurate {T} (set : T → XDebugProfiler → XDebugProfiler) val :
  preserves (profiler_setting_changed set val) accurate.
Proof.
  unfold profiler_setting_changed.
  apply preserves_bind; [apply preserves_get|intros t0].
  apply preserves_bind; [|intros; apply preserves_ret].
  apply preserves_when.
  apply preserves_bind; [apply xdebug_profiler_accurate|intros p].
  apply preserves_bind; [apply profiler_call_accurate|intros _].
  apply detach_if_needed_accurate.
Qed.

Lemma call_accurate b : preserves (call cfg env b) accurate.
Proof.
  destruct b; simpl.
  - apply preserves_bind; [apply start_trace_accurate|intros; apply preserves_ret].
  - apply preserves_bind; [apply stop_trace_accurate|intros; apply preserves_ret].
  - apply preserves_bind; [apply get_tracefile_name_accurate|intros; apply preserves_ret].
  - apply preserves_bind; [apply get_profiler_filename_accurate|intros; apply preserves_ret].
  - preserve_by ltac:(by intros []).
  - preserve_by ltac:(by intros []).
  - preserve_by ltac:(by intros []).
  - preserve_by ltac:(by intros []).
  - apply preserves_bind; [apply setting_changed_accurate|intros; apply preserves_ret].
  - apply preserves_bind; [apply setting_changed_accurate|intros; apply preserves_ret].
  - apply requestShutdown_accurate.
Qed.

Lemma call_never_aborts b t : accurate t → call cfg env b t ≠ Abort.
Proof.
  intros Ht.
  destruct b;
    try (by apply (builtin_never_aborts cfg env (OpStartTrace traceFileVar options)));
    try (by apply (builtin_never_aborts cfg env OpStopTrace));
    try (by apply (builtin_never_aborts cfg env OpRequestShutdown));
    revert Ht;
    destruct t as [[att tm] fac cf cd n nt lg]; unfold accurate, attached; simpl;
    intros (_ & H2 & _);
    (assert (att = true → ∃ p, fac = Some (XDebug p)) as Hp
       by (intros ->; by apply H2)); clear H2;
    unfold profiler_setting_changed, xdebug_get_profiler_filename,
      xdebug_get_code_coverage, xdebug_code_coverage_started,
      xdebug_stop_code_coverage;
    unfold_ops; simpl;
    try (destruct att; [destruct Hp as [[tr tf to pr pf po cm ct fr] ->]; [done|]|]);
    simpl; repeat case_match; simpl; done.
Qed.

(** X18: from a thread on which flag, event log and factory agree, any
    sequence of the script's calls and the shutdown hook runs through
    without violating an assertion, and flag, log and factory agree
    afterwards. *)
Theorem calls_run_accurate bs :
  ∀ t, accurate t → ∃ t', run_calls cfg env bs t = Some t' ∧ accurate t'.
Proof.
  induction bs as [|b bs IH]; simpl; intros t Ht; [by eauto|].
  pose proof (call_accurate b t Ht) as Ha.
  pose proof (call_never_aborts b t Ht) as Hne.
  destruct (call cfg env b t) as [[] t1|e t1|]; simpl in Ha; [by apply IH..|done].
Qed.

(** X19: the two state machines do not interfere: no life-cycle operation
    changes the coverage flag or the coverage data, and starting or
    stopping code coverage changes neither the attachment flag, nor the
    factory slot, nor the event log. *)
Theorem coverage_and_profiler_independent t :
  (∀ o, after (exec cfg env o t)
          (λ t', m_coverage_flag t' = m_coverage_flag t ∧
                 m_coverage t' = m_coverage t)) ∧
  (∀ options, after (xdebug_start_code_coverage env options t)
                (λ t', s_request t' = s_request t ∧
                       s_profiler_factory t' = s_profiler_factory t ∧
                       lifecycle t' = lifecycle t)) ∧
  (∀ cleanup, after (xdebug_stop_code_coverage cleanup t)
                (λ t', s_request t' = s_request t ∧
                       s_profiler_factory t' = s_profiler_factory t ∧
                       lifecycle t' = lifecycle t)).
Proof.
  split_and!.
  - intros o.
    assert (preserves (exec cfg env o)
              (λ t', m_coverage_flag t' = m_coverage_flag t ∧
                     m_coverage t' = m_coverage t)) as H.
    { destruct o; simpl; unfold xdebug_start_trace, xdebug_stop_trace,
        xdebug_get_tracefile_name;
        preserve_by ltac:(by intros []). }
    by apply H.
  - intros options.
    assert (preserves (xdebug_start_code_coverage env options)
              (λ t', s_request t' = s_request t ∧
                     s_profiler_factory t' = s_profiler_factory t ∧
                     lifecycle t' = lifecycle t)) as H
      by preserve_by ltac:(by intros []).
    by apply H.
  - intros cleanup.
    assert (preserves (xdebug_stop_code_coverage cleanup)
              (λ t', s_request t' = s_request t ∧
                     s_profiler_factory t' = s_profiler_factory t ∧
                     lifecycle t' = lifecycle t)) as H
      by preserve_by ltac:(by intros []).
    by apply H.
Qed.

(** X20: stopping code coverage without cleanup keeps the data, but the
    report is the empty array for as long as coverage is off; once coverage
    is started again the report is that of the kept data. *)
Theorem coverage_report_needs_coverage_on Report t :
  ∃ t1, xdebug_stop_code_coverage false t = Ok tt t1 ∧
        m_coverage t1 = m_coverage t ∧
        xdebug_get_code_coverage Report t1 = Ok ∅ t1 ∧
        ∃ t2, xdebug_start_code_coverage env 0 t1 = Throw VMSwitchModeBuiltin t2 ∧
              xdebug_get_code_coverage Report t2 = Ok (Report (m_coverage t)) t2.
Proof.
  unfold xdebug_stop_code_coverage, xdebug_get_code_coverage. unfold_ops. simpl.
  eexists. split; [reflexivity|]. simpl. split_and!; [done..|].
  destruct (isNested env); simpl; eexists; (split; [reflexivity|]); done.
Qed.

(** X21: stopping code coverage with cleanup turns the flag off and drops
    the data: the started query answers false, a second stop changes
    nothing, and after a new start the query answers true and the report
    is that of no data. *)
Theorem coverage_cleanup_resets Report cleanup t :
  ∃ t1, xdebug_stop_code_coverage true t = Ok tt t1 ∧
        xdebug_code_coverage_started t1 = Ok false t1 ∧
        xdebug_stop_code_coverage cleanup t1 = Ok tt t1 ∧
        ∃ t2, xdebug_start_code_coverage env 0 t1 = Throw VMSwitchModeBuiltin t2 ∧
              xdebug_code_coverage_started t2 = Ok true t2 ∧
              xdebug_get_code_coverage Report t2 = Ok (Report ∅) t2.
Proof.
  unfold xdebug_stop_code_coverage, xdebug_get_code_coverage,
    xdebug_code_coverage_started. unfold_ops. simpl.
  eexists. split; [reflexivity|]. simpl. split_and!; [done|by destruct cleanup|].
  destruct (isNested env); simpl; eexists; (split; [reflexivity|]); done.
Qed.

End Calls.

(** ** Call frames *)

(** X22: wherever [get_call_fp] passes its assertions, the four call
    builtins answer; the class and the function builtin answer false
    together, exactly when the caller of the builtin has no caller, and
    then the line is 0 and the file is that of the top-level frame;
    otherwise both answer a string. *)
Theorem call_builtins_agree prev :
  is_Some (get_call_fp prev) →
  ∃ c f file line,
    xdebug_call_class prev = Some c ∧
    xdebug_call_function prev = Some f ∧
    xdebug_call_file prev = Some file ∧
    xdebug_call_line prev = Some line ∧
    (c = VBool false ↔ f = VBool false) ∧
    (c = VBool false ↔ length prev = 1%nat) ∧
    (c = VBool false →
     line = 0 ∧
     ∃ fp0 pc, prev = [(fp0, pc)] ∧ isPseudoMain (m_func fp0) = true ∧
               file = filename (m_func fp0)) ∧
    (c ≠ VBool false → isString c = true ∧ isString f = true).
Proof.
  unfold xdebug_call_class, xdebug_call_function, xdebug_call_file, xdebug_call_line.
  destruct prev as [|[fp0 pc0] [|[fp1 pc1] older]]; simpl; intros [r Hr]; [done| |].
  - destruct (isPseudoMain (m_func fp0)) eqn:Emain; [|done]. simpl.
    do 4 eexists. split_and!; try reflexivity; try done.
    intros _. split; [done|]. by exists fp0, pc0.
  - destruct (cls (m_func fp1)), (isPseudoMain (m_func fp1)); simpl;
      do 4 eexists; split_and!; try reflexivity; try done;
      split; intros; discriminate.
Qed.

Lemma declared_vars_loop_spec func names :
  ∀ i vars r,
    declared_vars_loop func i names vars = Some r →
    r = vars ++ filter (λ v, s_closure_varname ≠ v) names ∧
    ∀ j v, names !! j = Some v → lookupVarId func v = Z.of_nat (i + j).
Proof.
  induction names as [|v names IH]; simpl; intros i vars r Hr.
  - simplify_eq. by rewrite app_nil_r.
  - case_decide as Hid; [|done].
    apply IH in Hr as [-> Hids]. split.
    + rewrite filter_cons. case_decide as Hc; case_decide; try done.
      by rewrite <- app_assoc.
    + intros [|j] w Hw; simpl in Hw.
      * simplify_eq. by rewrite Nat.add_0_r.
      * rewrite (Hids j w Hw). lia.
Qed.

Lemma declared_vars_loop_runs func names :
  ∀ i vars,
    (∀ j v, names !! j = Some v → lookupVarId func v = Z.of_nat (i + j)) →
    is_Some (declared_vars_loop func i names vars).
Proof.
  induction names as [|v names IH]; simpl; intros i vars Hids; [by eauto|].
  rewrite decide_True.
  - apply IH. intros j w Hw. rewrite (Hids (S j) w Hw). lia.
  - rewrite (Hids 0%nat v eq_refl). lia.
Qed.

(** X23: [xdebug_get_declared_vars] answers with the named locals of the
    calling function in their order, the closure variable left out: the
    answer has no [0Closure] and no name twice.  It answers whenever there
    is a calling frame whose [lookupVarId] gives every named local its
    index. *)
Theorem declared_vars_are_the_named_locals fp pc older :
  let func := m_func fp in
  (∀ vars,
     xdebug_get_declared_vars ((fp, pc) :: older) = Some vars →
     vars = filter (λ v, s_closure_varname ≠ v) (localVarNames func) ∧
     (s_closure_varname ∉ vars) ∧ NoDup vars) ∧
  ((∀ j v, localVarNames func !! j = Some v → lookupVarId func v = Z.of_nat j) →
   is_Some (xdebug_get_declared_vars ((fp, pc) :: older))) ∧
  xdebug_get_declared_vars [] = None.
Proof.
  intros func. unfold xdebug_get_declared_vars. simpl. fold func. split_and!; [| |done].
  - intros vars Hvars.
    apply declared_vars_loop_spec in Hvars as [-> Hids]. simpl. split_and!; [done| |].
    + rewrite list_elem_of_filter. by intros [? _].
    + apply NoDup_filter, NoDup_alt. intros i j v Hi Hj.
      apply Hids in Hi, Hj. simpl in *. lia.
  - intros Hids. by apply declared_vars_loop_runs.
Qed.

Lemma call_builtins_agree_witness :
  ∃ c f file line,
    xdebug_call_class sample_frames = Some c ∧
    xdebug_call_function sample_frames = Some f ∧
    xdebug_call_file sample_frames = Some file ∧
    xdebug_call_line sample_frames = Some line ∧
    (c = VBool false ↔ f = VBool false) ∧
    (c = VBool false ↔ length sample_frames = 1%nat) ∧
    (c = VBool false →
     line = 0 ∧
     ∃ fp0 pc, sample_frames = [(fp0, pc)] ∧ isPseudoMain (m_func fp0) = true ∧
               file = filename (m_func fp0)) ∧
    (c ≠ VBool false → isString c = true ∧ isString f = true).
Proof.
  apply (call_builtins_agree sample_frames). by eexists.
Defined.

Lemma declared_vars_are_the_named_locals_witness :
  xdebug_get_declared_vars sample_frames = Some ["request"; "result"] ∧
  ["request"; "result"]
  = filter (λ v, s_closure_varname ≠ v) (localVarNames handler_func) ∧
  (s_closure_varname ∉ ["request"; "result"]) ∧ NoDup ["request"; "result"] ∧
  is_Some (xdebug_get_declared_vars sample_frames).
Proof.
  assert (xdebug_get_declared_vars sample_frames = Some ["request"; "result"]) as H
    by reflexivity.
  destruct (declared_vars_are_the_named_locals {| m_func := handler_func |} 3
              [({| m_func := main_func |}, 5)]) as (Hvars & Hruns & _).
  split; [exact H|].
  destruct (Hvars _ H) as (H1 & H2 & H3).
  split; [exact H1|]. split; [exact H2|]. split; [exact H3|].
  apply Hruns. intros [|[|[|j]]] v; simpl; intros [= <-]; reflexivity.
Defined.

Lemma calls_run_accurate_witness :
  let calls :=
    [CallStartTrace (VStr "foo") 0; CallGetTracefileName; SetCollectTime true;
     CallStartCodeCoverage 2; CallStopTrace; CallStopTrace;
     CallGetProfilerFilename; RequestShutdown] in
  accurate sample_thread ∧
  ∃ t', run_calls sample_cfg sample_env calls sample_thread = Some t' ∧ accurate t'.
Proof.
  intros calls.
  assert (accurate sample_thread) as Ht.
  { split_and!; [done| |done]. split; [done|]. by intros [p Hp]. }
  split; [exact Ht|].
  exact (calls_run_accurate sample_cfg sample_env calls sample_thread Ht).
Defined.
